(** * DevLinks: the credential and token lifecycle of [authController]

    A shallow embedding of the six request handlers of the auth controller
    ([signup], [verifyEmail], [login], [protected], [forgotPassword],
    [resetPassword]) over an explicit user collection, followed by the
    properties of the token lifecycle.

    Each handler is a function from the request, the non-deterministic
    inputs of the run (clock, random token, mail transport) and the user
    collection to what the handler hands back to Express together with the
    collection it leaves behind. *)

From Stdlib Require Import String Ascii List ZArith Bool Arith Lia.
Import ListNotations.
Open Scope string_scope.

(** ** Values at the request boundary *)

(** A field of [req.body], [req.query] or [req.headers]: a string, or
    [undefined] when the client did not send it. *)
Definition field := option string.

(** JavaScript truthiness of such a field: [undefined] and the empty string
    are falsy. *)
Definition truthy (f : field) : bool :=
  match f with
  | Some s => negb (s =? "")
  | None => false
  end.

Definition field_eqb (a b : field) : bool :=
  match a, b with
  | Some x, Some y => x =? y
  | None, None => true
  | _, _ => false
  end.

Record Request := mkRequest {
  body_email : field;
  body_password : field;
  body_confirmPassword : field;
  query_token : field;
  headers_authorization : field
}.

(** What a single run of a handler observes of the outside world. *)
Record World := mkWorld {
  now : Z;                (* Date.now(), milliseconds *)
  randomToken : string;   (* the hex token drawn by the model's token method *)
  mailDelivered : bool    (* whether the awaited sendEmail resolves *)
}.

(** ** The user collection *)

Record User := mkUser {
  _id : nat;
  email : string;
  password : string;                    (* the stored hash *)
  isVerified : bool;
  emailVerificationToken : field;
  passwordResetToken : field;
  passwordResetExpires : option Z
}.

Definition set_isVerified (b : bool) (u : User) : User :=
  mkUser (_id u) (email u) (password u) b (emailVerificationToken u)
         (passwordResetToken u) (passwordResetExpires u).

Definition set_password (h : string) (u : User) : User :=
  mkUser (_id u) (email u) h (isVerified u) (emailVerificationToken u)
         (passwordResetToken u) (passwordResetExpires u).

Definition set_passwordResetToken (t : field) (u : User) : User :=
  mkUser (_id u) (email u) (password u) (isVerified u)
         (emailVerificationToken u) t (passwordResetExpires u).

Definition set_passwordResetExpires (e : option Z) (u : User) : User :=
  mkUser (_id u) (email u) (password u) (isVerified u)
         (emailVerificationToken u) (passwordResetToken u) e.

(** The collection in natural (insertion) order. *)
Definition Store := list User.

(** [User.findOne(filter)]: the first document that satisfies the filter. *)
Definition findOne (filter : User -> bool) (st : Store) : option User :=
  find filter st.

(** [User.findById(id)]. *)
Definition findById (id : nat) (st : Store) : option User :=
  findOne (fun u => Nat.eqb (_id u) id) st.

(** [doc.save()] on a document that was loaded from the collection: the
    stored document with the same [_id] is replaced. *)
Definition save (u : User) (st : Store) : Store :=
  map (fun v => if Nat.eqb (_id v) (_id u) then u else v) st.

(** The identifier given to a new document: one not yet in the collection. *)
Definition fresh_id (st : Store) : nat := S (list_max (map _id st)).

(** [doc.save()] on a new document. *)
Definition insert (u : User) (st : Store) : Store := (st ++ [u])%list.

(** Identifiers are unique in the collection. *)
Definition wf_store (st : Store) : Prop := NoDup (map _id st).

(** The filters the controller passes to [findOne].  A filter on
    [undefined] matches no document, every stored user having an email. *)
Definition by_email (e : field) (u : User) : bool :=
  match e with
  | Some s => email u =? s
  | None => false
  end.

Definition by_emailVerificationToken (h : string) (u : User) : bool :=
  field_eqb (emailVerificationToken u) (Some h).

(** [{ passwordResetToken: h, passwordResetExpires: { $gt: t } }] *)
Definition by_passwordResetToken (h : string) (t : Z) (u : User) : bool :=
  field_eqb (passwordResetToken u) (Some h) &&
  match passwordResetExpires u with
  | Some e => (t <? e)%Z
  | None => false
  end.

(** ** Collaborators *)

(** The libraries and helpers the controller calls and does not define. *)
Class Collaborators := {
  (* crypto.createHash('sha256').update(s).digest('hex') *)
  sha256hex : string -> string;
  (* the one-way password transform applied when a password is saved *)
  hashPassword : string -> string;
  (* user.matchPassword(candidate, storedHash) *)
  matchPassword : string -> string -> bool;
  (* the input policy of the schema: email, password *)
  policy : string -> string -> bool;
  (* jwt.verify(token, secret) when the clock shows the given time: the
     subject id, or a thrown error (malformed, bad signature, expired) *)
  jwtVerify : Z -> string -> option nat;
  (* the session token signed for a user id *)
  signToken : nat -> string
}.

(** ** What a handler hands back *)

Record AppError := mkAppError {
  message : string;
  statusCode : nat
}.

(** Exceptions that reject the handler's promise; [catchAsync] forwards
    them to the error middleware. *)
Inductive Exception :=
| TypeError            (* Hash.update on a non-string *)
| ValidationError      (* schema validation in save() *)
| SendEmailError       (* sendEmail rejected *)
| JsonWebTokenError.   (* jwt.verify rejected *)

Inductive Outcome :=
| Json (status : nat) (msg : string)         (* res.status(s).json({status:'success', message}) *)
| SendToken (u : User) (status : nat) (token : string)  (* createSendToken(u, s, res) *)
| Next (err : AppError)                      (* return next(new AppError(..)) *)
| NextUser (u : User)                        (* req.user = u; next() *)
| Throw (e : Exception).

(** ** Model methods *)

(** Modelled from the spec: the validators of the user schema, which is not
    part of the excerpt.  Saving with validation rejects a password that
    differs from its confirmation and inputs that fail the policy. *)
Definition validate `{Collaborators} (e p : string) (c : field) : bool :=
  field_eqb (Some p) c && policy e p.

(** Modelled from the spec: [createEmailVerificationToken] of the user
    model, which is not part of the excerpt.  It stores the fingerprint of
    a fresh random token on the document and returns the raw token. *)
Definition createEmailVerificationToken `{Collaborators} (w : World) (u : User)
  : string * User :=
  (randomToken w,
   mkUser (_id u) (email u) (password u) (isVerified u)
          (Some (sha256hex (randomToken w)))
          (passwordResetToken u) (passwordResetExpires u)).

(** Modelled from the spec: [createPasswordResetToken] of the user model,
    which is not part of the excerpt.  It stores the fingerprint of a fresh
    random token and an expiry ten minutes ahead, and returns the raw
    token. *)
Definition createPasswordResetToken `{Collaborators} (w : World) (u : User)
  : string * User :=
  (randomToken w,
   set_passwordResetExpires (Some (now w + 10 * 60 * 1000)%Z)
     (set_passwordResetToken (Some (sha256hex (randomToken w))) u)).

(** ** String helpers of [protected] *)

(** [s.split(c)] for a one-character separator. *)
Fixpoint split (c : ascii) (s : string) : list string :=
  match s with
  | EmptyString => [EmptyString]
  | String a s' =>
      if Ascii.eqb a c then EmptyString :: split c s'
      else match split c s' with
           | h :: t => String a h :: t
           | [] => [String a EmptyString]
           end
  end.

(** [token.length < n], read only where [token] is a string. *)
Definition shorter_than (n : nat) (f : field) : bool :=
  match f with
  | Some s => Nat.ltb (String.length s) n
  | None => false
  end.

(** ** The handlers of [authController] *)

Section Controller.

Context `{C : Collaborators}.

(** Modelled from the spec: [save()] of a new document under the schema of
    the user model, which is not part of the excerpt.  The document is
    validated, its password is hashed and it is appended to the
    collection; a validation failure throws and writes nothing. *)
Definition saveNew (u : User) (confirmPassword : field) (st : Store)
  : option Store :=
  if validate (email u) (password u) confirmPassword
  then Some (insert (set_password (hashPassword (password u)) u) st)
  else None.

Definition signup (req : Request) (w : World) (st : Store) : Outcome * Store :=
  match findOne (by_email (body_email req)) st with
  | Some existingUser =>
      (Next (mkAppError "User already exists with this email address." 400), st)
  | None =>
      match body_email req, body_password req with
      | Some e, Some p =>
          let newUser := mkUser (fresh_id st) e p false None None None in
          let (verificationToken, newUser) :=
            createEmailVerificationToken w newUser in
          match saveNew newUser (body_confirmPassword req) st with
          | None => (Throw ValidationError, st)
          | Some st' =>
              if mailDelivered w
              then (Json 201 "Verification email sent. Please verify your email address.", st')
              else (Throw SendEmailError, st')
          end
      | _, _ => (Throw ValidationError, st)   (* required fields missing *)
      end
  end.

Definition verifyEmail (req : Request) (st : Store) : Outcome * Store :=
  match query_token req with
  | None => (Throw TypeError, st)
  | Some token =>
      let hashedToken := sha256hex token in
      match findOne (by_emailVerificationToken hashedToken) st with
      | None =>
          (Next (mkAppError "Invalid or expired verification token." 400), st)
      | Some user =>
          let user := set_isVerified true user in
          (Json 200 "Email verified successfully.", save user st)
      end
  end.

Definition login (req : Request) (st : Store) : Outcome * Store :=
  if negb (truthy (body_email req)) || negb (truthy (body_password req))
  then (Next (mkAppError "Please provide email and password." 400), st)
  else
    match findOne (by_email (body_email req)) st, body_password req with
    | Some user, Some pw =>
        if negb (matchPassword pw (password user))
        then (Next (mkAppError "Invalid email or password." 401), st)
        else if negb (isVerified user)
        then (Next (mkAppError
                "Your email is not verified. Please verify your email address."
                401), st)
        else (SendToken user 200 (signToken (_id user)), st)
    | _, _ => (Next (mkAppError "Invalid email or password." 401), st)
    end.

(** The token taken from the [Authorization] header: the second
    space-separated word of a header that starts with [Bearer]. *)
Definition bearer (req : Request) : field :=
  match headers_authorization req with
  | Some a =>
      if truthy (Some a) && String.prefix "Bearer" a
      then nth_error (split " " a) 1
      else None
  | None => None
  end.

Definition protected (req : Request) (w : World) (st : Store)
  : Outcome * Store :=
  let token := bearer req in
  if negb (truthy token) || shorter_than 20 token
  then (Next (mkAppError "Invalid token provided" 401), st)
  else if negb (truthy token)
  then (Next (mkAppError
          "You are not logged in! Please log in to get access." 401), st)
  else
    match token with
    | None => (Throw JsonWebTokenError, st)
    | Some t =>
        match jwtVerify (now w) t with
        | None => (Throw JsonWebTokenError, st)
        | Some decoded_id =>
            match findById decoded_id st with
            | None =>
                (Next (mkAppError
                   "The user belonging to this token does no longer exist."
                   401), st)
            | Some currentUser => (NextUser currentUser, st)
            end
        end
    end.

Definition forgotPassword (req : Request) (w : World) (st : Store)
  : Outcome * Store :=
  match findOne (by_email (body_email req)) st with
  | None =>
      (Next (mkAppError "We can't find a user with that email address." 404), st)
  | Some user =>
      let (resetPasswordToken, user) := createPasswordResetToken w user in
      let st := save user st in
      if mailDelivered w
      then (Json 200 "Password reset email sent. Please check your email.", st)
      else
        let user := set_passwordResetToken None user in
        let user := set_passwordResetExpires None user in
        let st := save user st in
        (Next (mkAppError
           "There was an error sending the password reset email. Please try again later."
           500), st)
  end.

Definition resetPassword (req : Request) (w : World) (st : Store)
  : Outcome * Store :=
  match query_token req with
  | None => (Throw TypeError, st)
  | Some token =>
      let hashedToken := sha256hex token in
      match findOne (by_passwordResetToken hashedToken (now w)) st with
      | None =>
          (Next (mkAppError "Password reset token is invalid or has expired."
                   400), st)
      | Some user =>
          match body_password req with
          | Some p =>
              if validate (email user) p (body_confirmPassword req)
              then
                let user := set_password (hashPassword p) user in
                let user := set_passwordResetToken None user in
                let user := set_passwordResetExpires None user in
                (SendToken user 200 (signToken (_id user)), save user st)
              else (Throw ValidationError, st)
          | None => (Throw ValidationError, st)   (* required field missing *)
          end
      end
  end.

(** The document a successful [signup] leaves in the collection for email
    [e] and password [p]. *)
Definition created (e p : string) (w : World) (st : Store) : User :=
  mkUser (fresh_id st) e (hashPassword p) false
         (Some (sha256hex (randomToken w))) None None.

End Controller.

(** ** The error taxonomy, as the controller spells it *)

Definition InvalidVerificationToken : AppError :=
  mkAppError "Invalid or expired verification token." 400.

Definition InvalidResetToken : AppError :=
  mkAppError "Password reset token is invalid or has expired." 400.

Definition InvalidCredentials : AppError :=
  mkAppError "Invalid email or password." 401.

Definition InvalidTokenProvided : AppError :=
  mkAppError "Invalid token provided" 401.

Definition NotLoggedIn : AppError :=
  mkAppError "You are not logged in! Please log in to get access." 401.

Definition UserNoLongerExists : AppError :=
  mkAppError "The user belonging to this token does no longer exist." 401.

Definition ResetEmailFailed : AppError :=
  mkAppError
    "There was an error sending the password reset email. Please try again later."
    500.

(** ** A concrete choice of collaborators

    Used to run the handlers on examples.  The fingerprint and the password
    hash are stand-ins that tag their input; every property below is proved
    for an arbitrary choice of collaborators. *)

Definition demoSessionToken : string :=
  "eyJhbGciOiJIUzI1NiJ9.eyJpZCI6MX0.c2lnbmVk".

(** The session token of the examples expires after ninety days. *)
Definition demoSessionExpiry : Z := 7776000000.

Definition demo : Collaborators := {|
  sha256hex := fun s => "sha256:" ++ s;
  hashPassword := fun p => "$2b$12$" ++ p;
  matchPassword := fun p h => h =? "$2b$12$" ++ p;
  policy := fun e p => Nat.leb 8 (String.length p);
  jwtVerify := fun clock t =>
    if (t =? demoSessionToken) && (clock <? demoSessionExpiry)%Z
    then Some 1 else None;
  signToken := fun id => demoSessionToken
|}.

Definition demoSignup : Request :=
  mkRequest (Some "a@x.com") (Some "Pw123456") (Some "Pw123456") None None.

Definition demoLink (raw : string) : Request :=
  mkRequest None None None (Some raw) None.

(** The collection after a@x.com signed up on an empty one, the random
    token drawn being [tok1]. *)
Definition demoStore1 : Store :=
  [mkUser 1 "a@x.com" "$2b$12$Pw123456" false (Some "sha256:tok1") None None].

(** The same collection after the emailed link was followed. *)
Definition demoStore2 : Store :=
  [mkUser 1 "a@x.com" "$2b$12$Pw123456" true (Some "sha256:tok1") None None].

(** The same collection with a reset pending: requested at time 1000, the
    random token drawn being [rst1]. *)
Definition demoStore3 : Store :=
  [mkUser 1 "a@x.com" "$2b$12$Pw123456" true (Some "sha256:tok1")
          (Some "sha256:rst1") (Some 601000%Z)].

(** The collection after that reset was redeemed with a new password. *)
Definition demoStore4 : Store :=
  [mkUser 1 "a@x.com" "$2b$12$NewPw123" true (Some "sha256:tok1") None None].

Definition demoLogin (e p : string) : Request :=
  mkRequest (Some e) (Some p) None None None.

Definition demoForgot : Request :=
  mkRequest (Some "a@x.com") None None None None.

Definition demoReset (raw : string) : Request :=
  mkRequest None (Some "NewPw123") (Some "NewPw123") (Some raw) None.

Definition demoAuthorized (header : field) : Request :=
  mkRequest None None None None header.

(** ** The rest of the controller and the router *)

(** [logout]: forgets the user on the request object, clears the [jwt]
    cookie of the response and answers; it reads and writes no document. *)
Definition logout (req : Request) (st : Store) : Outcome * Store :=
  (Json 200 "Successfully logged out.", st).

(** A handler of the user controller, which the router mounts and the
    excerpt does not define: it is given the request, [req.user] and the
    collection. *)
Definition Handler := Request -> option User -> Store -> Outcome * Store.

Record UserController := mkUserController {
  updateProfile : Handler;
  getUserProfile : Handler;
  getUserProfileOffline : Handler
}.

(** The entries of the route table. *)
Inductive Route :=
| PostSignup
| GetVerifyEmail
| PostLogin
| PostLogout
| PostForgotPassword
| PatchResetPassword
| PatchProfileUpdate
| GetProfileUpdate
| GetOfflineProfile.

(** The entries whose handler is one of the auth controller alone. *)
Definition authRoute (r : Route) : bool :=
  match r with
  | PatchProfileUpdate | GetProfileUpdate | GetOfflineProfile => false
  | _ => true
  end.

Section Router.

Context `{C : Collaborators}.

(** [.patch(protected, handler)] and [.get(protected, handler)]: the handler
    runs when the gate called [next()] without an error, on the request the
    gate attached the user to; otherwise what the gate handed back stands. *)
Definition guarded (handler : Handler) (req : Request) (w : World)
  (st : Store) : Outcome * Store :=
  match protected req w st with
  | (NextUser currentUser, st') => handler req (Some currentUser) st'
  | (o, st') => (o, st')
  end.

Definition router (U : UserController) (r : Route)
  (req : Request) (w : World) (st : Store) : Outcome * Store :=
  match r with
  | PostSignup => signup req w st
  | GetVerifyEmail => verifyEmail req st
  | PostLogin => login req st
  | PostLogout => logout req st
  | PostForgotPassword => forgotPassword req w st
  | PatchResetPassword => resetPassword req w st
  | PatchProfileUpdate => guarded (updateProfile U) req w st
  | GetProfileUpdate => guarded (getUserProfile U) req w st
  | GetOfflineProfile => getUserProfileOffline U req None st
  end.

(** The collection after a sequence of requests was served one after the
    other. *)
Fixpoint serve (U : UserController) (calls : list (Route * Request * World))
  (st : Store) : Store :=
  match calls with
  | [] => st
  | (r, req, w) :: calls => serve U calls (snd (router U r req w st))
  end.

End Router.

(** What every request leaves of a stored document: its identifier, its
    email and its verification fingerprint, and its verified state once
    reached. *)
Definition lives_on (old new : User) : Prop :=
  _id new = _id old /\
  email new = email old /\
  emailVerificationToken new = emailVerificationToken old /\
  (isVerified old = true -> isVerified new = true).

(** Every document of [st] lives on in [st']. *)
Definition persists (st st' : Store) : Prop :=
  forall u, In u st -> exists u', In u' st' /\ lives_on u u'.

(** Identifiers and emails are unique in the collection. *)
Definition unique_keys (st : Store) : Prop :=
  wf_store st /\ NoDup (map email st).

(** No blank in a string. *)
Fixpoint spaceless (s : string) : bool :=
  match s with
  | EmptyString => true
  | String a s' => negb (Ascii.eqb a " "%char) && spaceless s'
  end.

(** A user controller that answers and writes nothing, for the examples. *)
Definition demoUserController : UserController :=
  mkUserController
    (fun req user st => (Json 200 "Profile updated.", st))
    (fun req user st => (Json 200 "Profile.", st))
    (fun req user st => (Json 200 "Offline profile.", st)).

(** ** The link editor of the client ([LinkItems]) *)

(** A string of the client: the sequence of its UTF-16 code units, which is
    what [length] counts. *)
Definition JsString := list N.

(** A string or [undefined]. *)
Definition jsfield := option JsString.

(** Truthiness: [undefined] and the empty string are falsy. *)
Definition js_truthy (f : jsfield) : bool :=
  match f with
  | Some (_ :: _) => true
  | _ => false
  end.

(** The code units of a string of ASCII characters. *)
Definition units (s : string) : JsString :=
  map N_of_ascii (list_ascii_of_string s).

(** A link of the profile as the component receives it: the platform name
    and the URL, which may be missing. *)
Record LinkProps := mkLinkProps {
  name : JsString;
  link : jsfield
}.

(** The state hooks of one [LinkItems]. *)
Record LinkItemState := mkLinkItemState {
  links : JsString;        (* useState(link.name) *)
  isLinkBoxOpen : bool;    (* useState(false) *)
  linkUrl : jsfield        (* useState(link.link || getRightProfileUrl(link.name)) *)
}.

Section LinkItems.

(** [getRightProfileUrl] of the client helpers, which the excerpt does not
    define: the base URL of a platform, or [undefined]. *)
Variable getRightProfileUrl : JsString -> jsfield.

(** [a || b] on fields. *)
Definition js_or (a b : jsfield) : jsfield := if js_truthy a then a else b.

Definition initialState (l : LinkProps) : LinkItemState :=
  mkLinkItemState (name l) false
    (js_or (link l) (getRightProfileUrl (name l))).

Definition handlePlatformChange (s : LinkItemState) : LinkItemState :=
  mkLinkItemState (links s) (negb (isLinkBoxOpen s)) (linkUrl s).

(** [handleUpdateLinkUrl]: the new state and the call to [updateLink] of
    the links context, if any; [None] is the type error of reading
    [length] of [undefined]. *)
Definition handleUpdateLinkUrl (l : LinkProps) (index : nat) (value : JsString)
  (s : LinkItemState) : option (LinkItemState * option (nat * LinkProps)) :=
  match getRightProfileUrl (name l) with
  | None => None
  | Some base =>
      if Nat.leb (List.length base) (List.length value)
      then Some (mkLinkItemState (links s) (isLinkBoxOpen s) (Some value),
                 Some (index, mkLinkProps (links s) (Some value)))
      else Some (s, None)
  end.

(** The input events [values], in order, on a component whose helper
    knows the platform: the last state and the calls to [updateLink]. *)
Fixpoint typed (l : LinkProps) (index : nat) (values : list JsString)
  (s : LinkItemState) : option (LinkItemState * list (nat * LinkProps)) :=
  match values with
  | [] => Some (s, [])
  | value :: values =>
      match handleUpdateLinkUrl l index value s with
      | None => None
      | Some (s', call) =>
          match typed l index values s' with
          | None => None
          | Some (s'', calls) =>
              Some (s'', match call with
                         | Some c => c :: calls
                         | None => calls
                         end)
          end
      end
  end.

End LinkItems.

(** A field that is a string of at least [n] code units. *)
Definition at_least (n : nat) (f : jsfield) : Prop :=
  match f with
  | Some v => n <= List.length v
  | None => False
  end.

(** A helper that knows GitHub alone, for the examples. *)
Definition demoProfileUrl (platform : JsString) : jsfield :=
  if list_eq_dec N.eq_dec platform (units "Github")
  then Some (units "https://github.com/")
  else None.

Definition demoGithub : LinkProps := mkLinkProps (units "Github") None.

(** What is typed in the examples: one more character, one character
    fewer, nothing, a value that ends in a non-ASCII letter (one code unit,
    two bytes in UTF-8) and is one unit short, and two more characters. *)
Definition demoTyping : list JsString :=
  [units "https://github.com/a";
   units "https://github.com";
   [];
   (units "https://github.c/" ++ [233%N])%list;
   units "https://github.com/ab"].

(** The example collection with a reset pending for an account that never
    followed its verification link. *)
Definition demoStore5 : Store :=
  [mkUser 1 "a@x.com" "$2b$12$Pw123456" false (Some "sha256:tok1")
          (Some "sha256:rst1") (Some 601000%Z)].

(** The moment at which the examples pass the gate. *)
Definition demoNow : World := mkWorld 1000 "" true.

Definition demoBearer : Request :=
  demoAuthorized (Some ("Bearer " ++ demoSessionToken)).

(** A visit: signup, verification, login, logout, reset request, reset. *)
Definition demoVisit : list (Route * Request * World) :=
  [(PostSignup, demoSignup, mkWorld 1000 "tok1" true);
   (GetVerifyEmail, demoLink "tok1", mkWorld 2000 "" true);
   (PostLogin, demoLogin "a@x.com" "Pw123456", mkWorld 3000 "" true);
   (PostLogout, demoLogin "a@x.com" "Pw123456", mkWorld 4000 "" true);
   (PostForgotPassword, demoForgot, mkWorld 5000 "rst1" true);
   (PatchResetPassword, demoReset "rst1", mkWorld 6000 "" true)].

(** * Properties *)

(** ** Fields and filters *)

Lemma field_eqb_eq (a b : field) : field_eqb a b = true <-> a = b.
Proof.
  destruct a as [x|], b as [y|]; simpl; split; intro E;
    try discriminate; try reflexivity.
  - apply String.eqb_eq in E. now subst.
  - injection E as ->. apply String.eqb_refl.
Qed.

(** ** The handlers on examples *)

Example demo_signup :
  @signup demo demoSignup (mkWorld 1000 "tok1" true) [] =
  (Json 201 "Verification email sent. Please verify your email address.",
   demoStore1).
Proof. reflexivity. Qed.

Example demo_split : split " " "Bearer abc def" = ["Bearer"; "abc"; "def"].
Proof. reflexivity. Qed.

Example demo_split_double_space : split " " "Bearer  abc" = ["Bearer"; ""; "abc"].
Proof. reflexivity. Qed.

Example demo_split_no_separator : split " " "Bearer" = ["Bearer"].
Proof. reflexivity. Qed.

(** ** The collection under [save] *)

Lemma save_ids (u : User) (st : Store) : map _id (save u st) = map _id st.
Proof.
  unfold save. induction st as [|v st IH]; simpl; [reflexivity|].
  rewrite IH. destruct (Nat.eqb_spec (_id v) (_id u)) as [E|E]; congruence.
Qed.

Lemma wf_save (u : User) (st : Store) : wf_store st -> wf_store (save u st).
Proof. unfold wf_store. now rewrite save_ids. Qed.

Lemma fresh_id_new (st : Store) : ~ In (fresh_id st) (map _id st).
Proof.
  unfold fresh_id. intro Hin.
  assert (Hmax : list_max (map _id st) <= list_max (map _id st)) by lia.
  rewrite list_max_le in Hmax. rewrite Forall_forall in Hmax.
  apply Hmax in Hin. lia.
Qed.

Lemma wf_insert (u : User) (st : Store) :
  wf_store st -> _id u = fresh_id st -> wf_store (insert u st).
Proof.
  unfold wf_store, insert. intros Hwf Hid. rewrite map_app. simpl.
  apply NoDup_app.
  - exact Hwf.
  - constructor; [intros []|constructor].
  - intros x Hx [<-|[]]. rewrite Hid in Hx. now apply fresh_id_new in Hx.
Qed.

Lemma In_save (u v : User) (st : Store) :
  In v (save u st) -> v = u \/ (In v st /\ _id v <> _id u).
Proof.
  unfold save. rewrite in_map_iff. intros (x & Hx & Hin).
  destruct (Nat.eqb_spec (_id x) (_id u)) as [E|E]; subst; auto.
Qed.

Lemma save_save (u1 u2 : User) (st : Store) :
  _id u1 = _id u2 -> save u2 (save u1 st) = save u2 st.
Proof.
  intros E. unfold save. rewrite map_map. apply map_ext. intros v.
  rewrite <- E.
  destruct (Nat.eqb (_id v) (_id u1)) eqn:Ev.
  - now rewrite Nat.eqb_refl.
  - now rewrite Ev.
Qed.

(** A filter that found [u] finds the saved document when the saved
    document still satisfies it. *)
Lemma findOne_save_hit (p : User -> bool) (u u' : User) (st : Store) :
  findOne p st = Some u -> _id u' = _id u -> p u' = true ->
  findOne p (save u' st) = Some u'.
Proof.
  unfold findOne, save. intros Hf Hid Hp.
  induction st as [|v st IH]; simpl in *; [discriminate|].
  destruct (p v) eqn:Hv.
  - injection Hf as ->. rewrite Hid, Nat.eqb_refl. now rewrite Hp.
  - destruct (Nat.eqb (_id v) (_id u')); [now rewrite Hp|].
    rewrite Hv. now apply IH.
Qed.

(** A filter finds nothing after a save when the saved document fails it
    and is the only document that could have passed. *)
Lemma findOne_save_miss (p : User -> bool) (u' : User) (st : Store) :
  (forall v, In v st -> p v = true -> _id v = _id u') -> p u' = false ->
  findOne p (save u' st) = None.
Proof.
  unfold findOne, save. intros Hall Hp.
  induction st as [|v st IH]; simpl in *; [reflexivity|].
  destruct (Nat.eqb_spec (_id v) (_id u')) as [E|E].
  - rewrite Hp. apply IH. intros x Hx. apply Hall. now right.
  - destruct (p v) eqn:Hv.
    + exfalso. apply E. apply Hall; auto.
    + apply IH. intros x Hx. apply Hall. now right.
Qed.

Lemma findOne_In (p : User -> bool) (u : User) (st : Store) :
  findOne p st = Some u -> In u st /\ p u = true.
Proof. apply find_some. Qed.

Lemma findOne_none (p : User -> bool) (st : Store) :
  (forall v, In v st -> p v = false) -> findOne p st = None.
Proof.
  unfold findOne. induction st as [|v st IH]; simpl; intros H; [reflexivity|].
  rewrite (H v) by now left. apply IH. intros x Hx. apply H. now right.
Qed.

Lemma wf_id_inj (st : Store) (a b : User) :
  wf_store st -> In a st -> In b st -> _id a = _id b -> a = b.
Proof.
  unfold wf_store. induction st as [|v st IH]; simpl; [intros _ []|].
  intros Hnd Ha Hb E. inversion Hnd as [|x l Hnotin Hnd']; subst.
  destruct Ha as [->|Ha], Hb as [->|Hb]; auto.
  - exfalso. apply Hnotin. rewrite E. now apply in_map.
  - exfalso. apply Hnotin. rewrite <- E. now apply in_map.
Qed.

Lemma Forall2_map_r {A B : Type} (R : A -> B -> Prop) (f : A -> B) (l : list A) :
  (forall x, In x l -> R x (f x)) -> Forall2 R l (map f l).
Proof.
  induction l as [|x l IH]; simpl; intros H; constructor.
  - apply H. now left.
  - apply IH. intros y Hy. apply H. now right.
Qed.

(** With unique identifiers, a save touches the saved document alone. *)
Lemma save_touches_one (u u' : User) (st : Store) :
  wf_store st -> In u st -> _id u' = _id u ->
  Forall2 (fun old new => new = old \/ (old = u /\ new = u')) st (save u' st).
Proof.
  intros Hwf Hin Hid. unfold save. apply Forall2_map_r. intros x Hx.
  destruct (Nat.eqb_spec (_id x) (_id u')) as [E|E]; [right|now left].
  split; [|reflexivity]. apply (wf_id_inj st); auto. congruence.
Qed.

Lemma findOne_app_miss (p : User -> bool) (st l : Store) :
  (forall v, In v st -> p v = false) ->
  findOne p (st ++ l)%list = findOne p l.
Proof.
  unfold findOne. induction st as [|v st IH]; simpl; intros H; [reflexivity|].
  rewrite (H v) by now left. apply IH. intros x Hx. apply H. now right.
Qed.

Lemma findOne_none_inv (p : User -> bool) (st : Store) (v : User) :
  findOne p st = None -> In v st -> p v = false.
Proof. intros H Hin. exact (find_none p st H v Hin). Qed.

Lemma save_insert_fresh (u u' : User) (st : Store) :
  ~ In (_id u') (map _id st) -> _id u = _id u' ->
  save u' (insert u st) = insert u' st.
Proof.
  intros Hfresh Hid. unfold save, insert. rewrite map_app. simpl.
  rewrite Hid, Nat.eqb_refl. f_equal.
  erewrite map_ext_in; [apply map_id|]. intros v Hv. simpl.
  destruct (Nat.eqb_spec (_id v) (_id u')) as [E|E]; [|reflexivity].
  exfalso. apply Hfresh. rewrite <- E. now apply in_map.
Qed.

(** ** Signup and email verification *)

Section Verification.

Context `{C : Collaborators}.

Lemma signup_success_inv (req : Request) (w : World) (st st1 : Store) (m : string) :
  signup req w st = (Json 201 m, st1) ->
  exists e p,
    body_email req = Some e /\ body_password req = Some p /\
    findOne (by_email (Some e)) st = None /\
    mailDelivered w = true /\
    st1 = insert (created e p w st) st.
Proof.
  unfold signup, saveNew, createEmailVerificationToken. intros H.
  destruct (findOne (by_email (body_email req)) st) eqn:Hf; [discriminate|].
  destruct (body_email req) as [e|]; [|discriminate].
  destruct (body_password req) as [p|]; [|discriminate].
  cbn [email password] in H.
  destruct (validate e p (body_confirmPassword req)); [|discriminate].
  destruct (mailDelivered w); [|discriminate].
  injection H as _ <-. exists e, p. repeat split; auto.
Qed.

Lemma verifyEmail_success_inv (req : Request) (st st' : Store) (s : nat) (m : string) :
  verifyEmail req st = (Json s m, st') ->
  exists token u,
    query_token req = Some token /\
    findOne (by_emailVerificationToken (sha256hex token)) st = Some u /\
    st' = save (set_isVerified true u) st.
Proof.
  unfold verifyEmail. intros H.
  destruct (query_token req) as [token|]; [|discriminate].
  destruct (findOne _ st) as [u|] eqn:Hf; [|discriminate].
  injection H as _ _ <-. now exists token, u.
Qed.

(** C8.  A successful [verifyEmail] changes the [isVerified] field of the
    matched document and nothing else: every other document of the
    collection is left as it was, the matched one differs from its old value
    in [isVerified] alone, and its [emailVerificationToken] fingerprint is
    still stored, so the same filter finds it again. *)
Theorem verifyEmail_frame (req : Request) (st st' : Store) :
  wf_store st ->
  verifyEmail req st = (Json 200 "Email verified successfully.", st') ->
  exists token u,
    query_token req = Some token /\
    In u st /\
    emailVerificationToken u = Some (sha256hex token) /\
    Forall2 (fun old new =>
               new = old \/ (old = u /\ new = set_isVerified true u)) st st' /\
    _id (set_isVerified true u) = _id u /\
    email (set_isVerified true u) = email u /\
    password (set_isVerified true u) = password u /\
    emailVerificationToken (set_isVerified true u) = emailVerificationToken u /\
    passwordResetToken (set_isVerified true u) = passwordResetToken u /\
    passwordResetExpires (set_isVerified true u) = passwordResetExpires u /\
    findOne (by_emailVerificationToken (sha256hex token)) st'
      = Some (set_isVerified true u).
Proof.
  intros Hwf H. apply verifyEmail_success_inv in H as (token & u & Hq & Hf & ->).
  exists token, u. destruct (findOne_In _ _ _ Hf) as [Hin Hp].
  unfold by_emailVerificationToken in Hp. apply field_eqb_eq in Hp.
  repeat split; auto.
  - now apply save_touches_one.
  - apply findOne_save_hit with (u := u); auto.
    unfold by_emailVerificationToken. simpl. now apply field_eqb_eq.
Qed.

(** C1, as the controller behaves.  After a signup whose token is fresh
    (no earlier document carries its fingerprint), the first redemption of
    the emailed token sets [isVerified] on the created document; a second
    redemption of the same raw token matches the same document again,
    answers with the same success and leaves the collection as the first
    redemption left it: the token is not consumed.  [verifyEmail] answers
    with the invalid-token error exactly when the request has a token whose
    fingerprint no stored document carries. *)
Theorem verifyEmail_redeem_twice
  (req link : Request) (w : World) (st st1 : Store) (m : string) :
  signup req w st = (Json 201 m, st1) ->
  (forall v, In v st ->
             emailVerificationToken v <> Some (sha256hex (randomToken w))) ->
  query_token link = Some (randomToken w) ->
  (exists u st2,
     findOne (by_email (body_email req)) st1 = Some u /\
     isVerified u = false /\
     verifyEmail link st1 = (Json 200 "Email verified successfully.", st2) /\
     findOne (by_email (body_email req)) st2 = Some (set_isVerified true u) /\
     isVerified (set_isVerified true u) = true /\
     verifyEmail link st2 = (Json 200 "Email verified successfully.", st2)) /\
  (forall r s,
     fst (verifyEmail r s) = Next InvalidVerificationToken <->
     exists token,
       query_token r = Some token /\
       forall v, In v s ->
                 emailVerificationToken v <> Some (sha256hex token)).
Proof.
  intros Hs Hnone Hq. split.
  {
    apply signup_success_inv in Hs as (e & p & He & Hp & Hf & Hm & ->).
    set (u := created e p w st). set (u' := set_isVerified true u).
    assert (Hmiss : forall v, In v st ->
              by_emailVerificationToken (sha256hex (randomToken w)) v = false).
    { intros v Hv. unfold by_emailVerificationToken.
      destruct (field_eqb _ _) eqn:E; [|reflexivity].
      apply field_eqb_eq in E. now apply Hnone in E. }
    assert (Hmail : forall v, In v st -> by_email (Some e) v = false).
    { intros v Hv. now apply (findOne_none_inv _ st). }
    assert (Hhit : by_emailVerificationToken (sha256hex (randomToken w)) u = true).
    { unfold by_emailVerificationToken. now apply field_eqb_eq. }
    assert (Hfresh : ~ In (_id u') (map _id st)) by apply fresh_id_new.
    assert (Hsave : save u' (insert u st) = insert u' st)
      by now apply save_insert_fresh.
    assert (Hee : by_email (Some e) u = true) by apply String.eqb_refl.
    exists u, (insert u' st). rewrite He.
    split; [|split; [reflexivity|split; [|split; [|split; [reflexivity|]]]]].
    - unfold insert. rewrite findOne_app_miss by exact Hmail.
      unfold findOne. cbn [find]. now rewrite Hee.
    - unfold verifyEmail. rewrite Hq. unfold insert at 1.
      rewrite findOne_app_miss by exact Hmiss.
      unfold findOne at 1. cbn [find]. rewrite Hhit. fold u'.
      now rewrite Hsave.
    - unfold insert. rewrite findOne_app_miss by exact Hmail.
      unfold findOne. cbn [find].
      replace (by_email (Some e) u') with true by (symmetry; exact Hee).
      reflexivity.
    - unfold verifyEmail. rewrite Hq. unfold insert at 1.
      rewrite findOne_app_miss by exact Hmiss.
      unfold findOne at 1. cbn [find].
      replace (by_emailVerificationToken (sha256hex (randomToken w)) u')
        with true by (symmetry; exact Hhit).
      replace (set_isVerified true u') with u' by reflexivity.
      now rewrite (save_insert_fresh u' u' st Hfresh eq_refl).
  }
  intros r s. unfold verifyEmail. destruct (query_token r) as [token|].
  - destruct (findOne _ s) as [u|] eqn:Hf; cbn [fst]; split.
    + discriminate.
    + intros (t & Ht & Hno). injection Ht as <-.
      apply findOne_In in Hf as [Hin Hp].
      unfold by_emailVerificationToken in Hp. apply field_eqb_eq in Hp.
      now destruct (Hno u Hin).
    + intros _. exists token. split; [reflexivity|]. intros v Hv E.
      pose proof (findOne_none_inv _ _ _ Hf Hv) as Hp.
      unfold by_emailVerificationToken in Hp.
      apply field_eqb_eq in E. congruence.
    + reflexivity.
  - cbn [fst]. split; [discriminate|]. intros (t & Ht & _). discriminate.
Qed.

End Verification.

(** ** Failures that write nothing *)

Section NoWrite.

Context `{C : Collaborators}.

Lemma login_no_write (req : Request) (st : Store) : snd (login req st) = st.
Proof.
  unfold login.
  destruct (negb (truthy (body_email req)) || negb (truthy (body_password req)));
    [reflexivity|].
  destruct (findOne _ st) as [u|]; [|reflexivity].
  destruct (body_password req) as [pw|]; [|reflexivity].
  destruct (negb (matchPassword pw (password u))); [reflexivity|].
  destruct (negb (isVerified u)); reflexivity.
Qed.

Lemma protected_no_write (req : Request) (w : World) (st : Store) :
  snd (protected req w st) = st.
Proof.
  unfold protected.
  destruct (negb (truthy (bearer req)) || shorter_than 20 (bearer req));
    [reflexivity|].
  destruct (negb (truthy (bearer req))); [reflexivity|].
  destruct (bearer req) as [t|]; [|reflexivity].
  destruct (jwtVerify (now w) t) as [i|]; [|reflexivity].
  destruct (findById i st); reflexivity.
Qed.

Lemma verifyEmail_failure_no_write (req : Request) (st st' : Store) (o : Outcome) :
  verifyEmail req st = (o, st') ->
  (forall s m, o <> Json s m) -> st' = st.
Proof.
  unfold verifyEmail. intros H Hfail.
  destruct (query_token req) as [t|]; [|now injection H].
  destruct (findOne _ st) as [u|]; [|now injection H].
  injection H as <- _. now destruct (Hfail 200 "Email verified successfully.").
Qed.

Lemma resetPassword_failure_no_write
  (req : Request) (w : World) (st st' : Store) (o : Outcome) :
  resetPassword req w st = (o, st') ->
  (forall u s t, o <> SendToken u s t) -> st' = st.
Proof.
  unfold resetPassword. intros H Hfail.
  destruct (query_token req) as [t|]; [|now injection H].
  destruct (findOne _ st) as [u|]; [|now injection H].
  destruct (body_password req) as [p|]; [|now injection H].
  destruct (validate _ _ _); [|now injection H].
  injection H as <- _. exfalso. eapply Hfail. reflexivity.
Qed.

Lemma forgotPassword_not_found_no_write (req : Request) (w : World) (st : Store) :
  findOne (by_email (body_email req)) st = None ->
  forgotPassword req w st =
  (Next (mkAppError "We can't find a user with that email address." 404), st).
Proof. unfold forgotPassword. now intros ->. Qed.

Lemma signup_rejected_no_write
  (req : Request) (w : World) (st st' : Store) (o : Outcome) :
  signup req w st = (o, st') ->
  o <> Throw SendEmailError -> (forall s m, o <> Json s m) -> st' = st.
Proof.
  unfold signup. intros H Hmail Hok.
  destruct (findOne _ st); [now injection H|].
  destruct (body_email req) as [e|]; [|now injection H].
  destruct (body_password req) as [p|]; [|now injection H].
  destruct (createEmailVerificationToken w _) as [raw nu].
  destruct (saveNew nu _ st) as [st1|]; [|now injection H].
  destruct (mailDelivered w); injection H as <- _.
  - exfalso. eapply Hok. reflexivity.
  - now destruct Hmail.
Qed.

(** C2, the failure of the welcome mail.  When [sendEmail] rejects after
    [newUser.save()], [signup] throws and the new, unverified document
    stays in the collection: nothing undoes the write, and a later signup
    with the same email is turned away as a duplicate. *)
Theorem signup_mail_failure_persists
  (req : Request) (w : World) (st : Store) (e p : string) :
  body_email req = Some e ->
  body_password req = Some p ->
  findOne (by_email (Some e)) st = None ->
  validate e p (body_confirmPassword req) = true ->
  mailDelivered w = false ->
  let st' := insert (created e p w st) st in
  signup req w st = (Throw SendEmailError, st') /\
  st' <> st /\
  findOne (by_email (Some e)) st' = Some (created e p w st) /\
  forall w2,
    signup req w2 st' =
    (Next (mkAppError "User already exists with this email address." 400), st').
Proof.
  intros He Hp Hf Hv Hm st'.
  assert (Hfound : findOne (by_email (Some e)) st' = Some (created e p w st)).
  { unfold st', insert. rewrite findOne_app_miss.
    - unfold findOne. cbn [find].
      replace (by_email (Some e) (created e p w st)) with true
        by (symmetry; apply String.eqb_refl).
      reflexivity.
    - intros v Hin. now apply (findOne_none_inv _ st). }
  split; [|split; [|split]].
  - unfold signup, saveNew, createEmailVerificationToken.
    rewrite He, Hf, Hp. cbn [email password]. now rewrite Hv, Hm.
  - unfold st', insert. intros E.
    apply (f_equal (@List.length User)) in E.
    rewrite length_app in E. simpl in E. lia.
  - exact Hfound.
  - intros w2. unfold signup. now rewrite He, Hfound.
Qed.

End NoWrite.

(** ** The password reset flow *)

Section Reset.

Context `{C : Collaborators}.

(** A document without a pending reset fails the reset filter. *)
Lemma by_passwordResetToken_cleared (h : string) (t : Z) (u : User) :
  passwordResetToken u = None -> by_passwordResetToken h t u = false.
Proof. unfold by_passwordResetToken. now intros ->. Qed.

Lemma by_passwordResetToken_true (h : string) (t : Z) (u : User) :
  by_passwordResetToken h t u = true ->
  passwordResetToken u = Some h /\
  exists e, passwordResetExpires u = Some e /\ (t < e)%Z.
Proof.
  unfold by_passwordResetToken. intros H.
  apply andb_true_iff in H as [Ht He]. apply field_eqb_eq in Ht.
  split; [exact Ht|].
  destruct (passwordResetExpires u) as [e|]; [|discriminate].
  exists e. split; [reflexivity|]. now apply Z.ltb_lt.
Qed.

(** Once the one document that carries a fingerprint has its reset fields
    cleared and saved, no redemption of that fingerprint finds anything. *)
Lemma redeem_after_clear
  (link : Request) (w : World) (st : Store) (raw : string) (u u' : User) :
  query_token link = Some raw ->
  (forall v, In v st ->
             passwordResetToken v = Some (sha256hex raw) -> _id v = _id u) ->
  _id u' = _id u -> passwordResetToken u' = None ->
  resetPassword link w (save u' st) = (Next InvalidResetToken, save u' st).
Proof.
  intros Hq Huniq Hid Hclear. unfold resetPassword. rewrite Hq.
  rewrite findOne_save_miss; [reflexivity| |].
  - intros v Hin Hp. apply by_passwordResetToken_true in Hp as [Ht _].
    rewrite Hid. now apply Huniq.
  - now apply by_passwordResetToken_cleared.
Qed.

(** C4.  When the reset mail cannot be sent, [forgotPassword] saves the
    document once more with both reset fields cleared and hands the 500
    error to the caller; the token that was drawn redeems nothing
    afterwards. *)
Theorem forgotPassword_rollback
  (req : Request) (w : World) (st : Store) (u : User) :
  findOne (by_email (body_email req)) st = Some u ->
  mailDelivered w = false ->
  let pending := snd (createPasswordResetToken w u) in
  let cleared :=
    set_passwordResetExpires None (set_passwordResetToken None pending) in
  passwordResetToken pending = Some (sha256hex (randomToken w)) /\
  passwordResetExpires pending = Some (now w + 600000)%Z /\
  forgotPassword req w st =
    (Next (mkAppError
       "There was an error sending the password reset email. Please try again later."
       500),
     save cleared (save pending st)) /\
  save cleared (save pending st) = save cleared st /\
  passwordResetToken cleared = None /\
  passwordResetExpires cleared = None /\
  findOne (by_email (body_email req)) (save cleared st) = Some cleared /\
  (forall v, In v (save cleared st) -> _id v = _id u ->
             passwordResetToken v = None /\ passwordResetExpires v = None) /\
  forall link w2,
    query_token link = Some (randomToken w) ->
    (forall v, In v st -> _id v <> _id u ->
               passwordResetToken v <> Some (sha256hex (randomToken w))) ->
    resetPassword link w2 (save cleared st) =
    (Next InvalidResetToken, save cleared st).
Proof.
  intros Hf Hm pending cleared.
  destruct (findOne_In _ _ _ Hf) as [Hin Hp].
  split; [reflexivity|]. split; [reflexivity|].
  split; [|split; [|split; [|split; [|split; [|split]]]]].
  - unfold forgotPassword. rewrite Hf.
    unfold createPasswordResetToken in *. cbn [snd] in *. now rewrite Hm.
  - now apply save_save.
  - reflexivity.
  - reflexivity.
  - apply findOne_save_hit with (u := u); auto.
  - intros v Hv Hid. apply In_save in Hv as [->|[_ Hne]]; [now split|].
    now destruct Hne.
  - intros link w2 Hq Hother. apply redeem_after_clear with (raw := randomToken w) (u := u); auto.
    intros v Hv Ht. destruct (Nat.eq_dec (_id v) (_id u)) as [E|E]; [exact E|].
    now destruct (Hother v Hv E).
Qed.

(** C3.  A successful [resetPassword] writes the new password hash and the
    two cleared reset fields with one [save], and the same raw token then
    redeems nothing: the next attempt gets the invalid-token error and
    changes nothing.  The fingerprint is taken to identify one document. *)
Theorem resetPassword_single_use
  (req : Request) (w : World) (st : Store) (raw p : string) (u : User) :
  query_token req = Some raw ->
  findOne (by_passwordResetToken (sha256hex raw) (now w)) st = Some u ->
  body_password req = Some p ->
  validate (email u) p (body_confirmPassword req) = true ->
  (forall v, In v st ->
             passwordResetToken v = Some (sha256hex raw) -> _id v = _id u) ->
  exists u',
    resetPassword req w st = (SendToken u' 200 (signToken (_id u)), save u' st) /\
    _id u' = _id u /\
    email u' = email u /\
    password u' = hashPassword p /\
    passwordResetToken u' = None /\
    passwordResetExpires u' = None /\
    findById (_id u) (save u' st) = Some u' /\
    forall req2 w2,
      query_token req2 = Some raw ->
      resetPassword req2 w2 (save u' st) = (Next InvalidResetToken, save u' st).
Proof.
  intros Hq Hf Hp Hv Huniq.
  exists (set_passwordResetExpires None
            (set_passwordResetToken None (set_password (hashPassword p) u))).
  destruct (findOne_In _ _ _ Hf) as [Hin _].
  split; [|split; [|split; [|split; [|split; [|split; [|split]]]]]];
    try reflexivity.
  - unfold resetPassword. now rewrite Hq, Hf, Hp, Hv.
  - unfold findById, findOne, save. clear - Hin.
    induction st as [|v st IH]; [destruct Hin|]. cbn [map find].
    destruct (Nat.eqb (_id v) _) eqn:E; cbn [_id set_passwordResetExpires
      set_passwordResetToken set_password] in *.
    + now rewrite Nat.eqb_refl.
    + rewrite E. apply IH. destruct Hin as [->|Hin]; [|exact Hin].
      now rewrite Nat.eqb_refl in E.
  - intros req2 w2 Hq2. now apply redeem_after_clear with (raw := raw) (u := u).
Qed.

(** C6.  [resetPassword] answers with the one invalid-token error both when
    no document carries the fingerprint of the raw token and when the
    document that carries it has an expiry that is not later than the
    clock; a token whose expiry is [T + 10 min] is turned away at every
    time from [T + 10 min] on.  Nothing is written in any of these cases. *)
Theorem resetPassword_invalid_or_expired
  (req : Request) (w : World) (st : Store) (raw : string) :
  query_token req = Some raw ->
  ((forall v, In v st -> passwordResetToken v <> Some (sha256hex raw)) ->
   resetPassword req w st = (Next InvalidResetToken, st)) /\
  (forall u e,
     In u st ->
     passwordResetToken u = Some (sha256hex raw) ->
     (forall v, In v st ->
                passwordResetToken v = Some (sha256hex raw) -> v = u) ->
     passwordResetExpires u = Some e ->
     (e <= now w)%Z ->
     resetPassword req w st = (Next InvalidResetToken, st)) /\
  (forall u T,
     In u st ->
     passwordResetToken u = Some (sha256hex raw) ->
     (forall v, In v st ->
                passwordResetToken v = Some (sha256hex raw) -> v = u) ->
     passwordResetExpires u = Some (T + 10 * 60 * 1000)%Z ->
     (T + 10 * 60 * 1000 <= now w)%Z ->
     resetPassword req w st = (Next InvalidResetToken, st)).
Proof.
  intros Hq.
  assert (Hexp : forall u e,
     In u st ->
     passwordResetToken u = Some (sha256hex raw) ->
     (forall v, In v st ->
                passwordResetToken v = Some (sha256hex raw) -> v = u) ->
     passwordResetExpires u = Some e ->
     (e <= now w)%Z ->
     resetPassword req w st = (Next InvalidResetToken, st)).
  { intros u e Hin Ht Huniq He Hle. unfold resetPassword. rewrite Hq.
    rewrite findOne_none; [reflexivity|]. intros v Hv.
    destruct (by_passwordResetToken _ _ v) eqn:Hp; [|reflexivity].
    apply by_passwordResetToken_true in Hp as (Htv & e' & He' & Hlt).
    apply Huniq in Htv; [|exact Hv]. subst v. rewrite He in He'.
    injection He' as <-. lia. }
  split; [|split].
  - intros Hnone. unfold resetPassword. rewrite Hq.
    rewrite findOne_none; [reflexivity|]. intros v Hv.
    destruct (by_passwordResetToken _ _ v) eqn:Hp; [|reflexivity].
    apply by_passwordResetToken_true in Hp as [Htv _].
    now destruct (Hnone v Hv).
  - exact Hexp.
  - intros u T. apply Hexp.
Qed.

End Reset.

(** ** Login and the protected-route gate *)

Section Gate.

Context `{C : Collaborators}.

Lemma truthy_Some (f : field) :
  truthy f = true -> exists s, f = Some s /\ s <> "".
Proof.
  destruct f as [s|]; simpl; [|discriminate]. intros H. exists s.
  split; [reflexivity|]. intros ->. discriminate.
Qed.

(** C5.  For non-blank credentials, [login] hands back one and the same
    error, "Invalid email or password." with status 401, when no document
    has the email and when a document has it but the password does not
    match; the two runs are equal in what they return and neither writes. *)
Theorem login_failure_indistinguishable
  (req1 req2 : Request) (st1 st2 : Store) (u : User) (pw : string) :
  truthy (body_email req1) = true -> truthy (body_password req1) = true ->
  truthy (body_email req2) = true -> truthy (body_password req2) = true ->
  findOne (by_email (body_email req1)) st1 = None ->
  findOne (by_email (body_email req2)) st2 = Some u ->
  body_password req2 = Some pw ->
  matchPassword pw (password u) = false ->
  login req1 st1 = (Next InvalidCredentials, st1) /\
  login req2 st2 = (Next InvalidCredentials, st2) /\
  fst (login req1 st1) = fst (login req2 st2) /\
  message InvalidCredentials = "Invalid email or password." /\
  statusCode InvalidCredentials = 401.
Proof.
  intros He1 Hp1 He2 Hp2 Hnone Hsome Hpw Hmatch.
  assert (L1 : login req1 st1 = (Next InvalidCredentials, st1)).
  { unfold login. now rewrite He1, Hp1, Hnone. }
  assert (L2 : login req2 st2 = (Next InvalidCredentials, st2)).
  { unfold login. now rewrite He2, Hp2, Hsome, Hpw, Hmatch. }
  rewrite L1, L2. repeat split.
Qed.

Lemma bearer_absent (req : Request) :
  headers_authorization req = None -> bearer req = None.
Proof. unfold bearer. now intros ->. Qed.

Lemma bearer_other_scheme (req : Request) (a : string) :
  headers_authorization req = Some a -> String.prefix "Bearer" a = false ->
  bearer req = None.
Proof. unfold bearer. intros -> ->. now rewrite andb_false_r. Qed.

Lemma bearer_no_second_word (req : Request) (a : string) :
  headers_authorization req = Some a -> nth_error (split " " a) 1 = None ->
  bearer req = None.
Proof.
  unfold bearer. intros -> ->. now destruct (truthy (Some a) && _).
Qed.

Lemma protected_precheck (req : Request) (w : World) (st : Store) :
  truthy (bearer req) = false \/ shorter_than 20 (bearer req) = true ->
  protected req w st = (Next InvalidTokenProvided, st).
Proof.
  unfold protected. intros [H|H]; rewrite H; [reflexivity|].
  now rewrite orb_true_r.
Qed.

Lemma protected_past_precheck
  (req : Request) (w : World) (st : Store) (t : string) :
  bearer req = Some t -> 20 <= String.length t ->
  protected req w st =
  match jwtVerify (now w) t with
  | None => (Throw JsonWebTokenError, st)
  | Some decoded_id =>
      match findById decoded_id st with
      | None => (Next UserNoLongerExists, st)
      | Some currentUser => (NextUser currentUser, st)
      end
  end.
Proof.
  intros Hb Hlen. unfold protected. rewrite Hb.
  assert (Ht : truthy (Some t) = true).
  { destruct t; [simpl in Hlen; lia|reflexivity]. }
  assert (Hs : shorter_than 20 (Some t) = false).
  { unfold shorter_than. apply Nat.ltb_ge. exact Hlen. }
  rewrite Ht, Hs. reflexivity.
Qed.

(** C7, as the controller behaves.  The gate turns a request away with a
    401 error when the [Authorization] header is absent, is not a [Bearer]
    header, carries no token after the scheme, or carries a token of fewer
    than 20 characters; this is decided before [jwt.verify] is consulted.
    A token of 20 characters or more that [jwt.verify] rejects, a malformed
    one included, is not answered with an error of the gate: the handler
    throws the exception of [jwt.verify].  A verified token whose subject
    id is in no document is turned away with a 401 error, and otherwise
    the document found by that id is attached to the request and the next
    handler runs. *)
Theorem protected_gate (req : Request) (w : World) (st : Store) :
  (headers_authorization req = None ->
   protected req w st = (Next InvalidTokenProvided, st)) /\
  (forall a, headers_authorization req = Some a ->
             String.prefix "Bearer" a = false ->
             protected req w st = (Next InvalidTokenProvided, st)) /\
  (forall a, headers_authorization req = Some a ->
             nth_error (split " " a) 1 = None ->
             protected req w st = (Next InvalidTokenProvided, st)) /\
  (forall t, bearer req = Some t -> String.length t < 20 ->
             protected req w st = (Next InvalidTokenProvided, st)) /\
  statusCode InvalidTokenProvided = 401 /\
  (forall t, bearer req = Some t -> 20 <= String.length t ->
             jwtVerify (now w) t = None ->
             protected req w st = (Throw JsonWebTokenError, st)) /\
  (forall t i, bearer req = Some t -> 20 <= String.length t ->
               jwtVerify (now w) t = Some i -> findById i st = None ->
               protected req w st = (Next UserNoLongerExists, st)) /\
  statusCode UserNoLongerExists = 401 /\
  (forall t i u, bearer req = Some t -> 20 <= String.length t ->
                 jwtVerify (now w) t = Some i -> findById i st = Some u ->
                 protected req w st = (NextUser u, st) /\
                 In u st /\ _id u = i).
Proof.
  split; [|split; [|split; [|split; [|split; [|split; [|split; [|split]]]]]]].
  - intros H. apply protected_precheck. left.
    now rewrite (bearer_absent req H).
  - intros a H Hp. apply protected_precheck. left.
    now rewrite (bearer_other_scheme req a H Hp).
  - intros a H Hn. apply protected_precheck. left.
    now rewrite (bearer_no_second_word req a H Hn).
  - intros t Hb Hlen. apply protected_precheck. right. rewrite Hb.
    unfold shorter_than. now apply Nat.ltb_lt.
  - reflexivity.
  - intros t Hb Hlen Hv.
    rewrite (protected_past_precheck req w st t Hb Hlen). now rewrite Hv.
  - intros t i Hb Hlen Hv Hf.
    rewrite (protected_past_precheck req w st t Hb Hlen). now rewrite Hv, Hf.
  - reflexivity.
  - intros t i u Hb Hlen Hv Hf.
    rewrite (protected_past_precheck req w st t Hb Hlen). rewrite Hv, Hf.
    split; [reflexivity|]. apply findOne_In in Hf as [Hin Hid].
    split; [exact Hin|]. now apply Nat.eqb_eq.
Qed.

(** C9.  The gate never answers "You are not logged in! Please log in to
    get access.": a request without a token is already turned away by the
    check before it, with "Invalid token provided". *)
Theorem protected_not_logged_in_unreachable
  (req : Request) (w : World) (st : Store) :
  fst (protected req w st) <> Next NotLoggedIn /\
  (truthy (bearer req) = false ->
   protected req w st = (Next InvalidTokenProvided, st)).
Proof.
  split.
  - unfold protected.
    destruct (truthy (bearer req)) eqn:Ht; cbn [negb orb].
    + destruct (shorter_than 20 (bearer req)); [discriminate|].
      destruct (bearer req) as [t|]; [|discriminate].
      destruct (jwtVerify (now w) t) as [i|]; [|discriminate].
      destruct (findById i st); discriminate.
    + discriminate.
  - intros H. apply protected_precheck. now left.
Qed.

(** C10.  Without a [token] query parameter, [verifyEmail] and
    [resetPassword] throw the type error of the hash computation, whatever
    the collection holds, and write nothing; whenever either of them hands
    back an [AppError], the invalid-token error included, a token was in
    the request. *)
Theorem absent_token_throws (req : Request) (w : World) (st : Store) :
  (query_token req = None ->
   verifyEmail req st = (Throw TypeError, st) /\
   resetPassword req w st = (Throw TypeError, st) /\
   fst (verifyEmail req st) <> Next InvalidVerificationToken /\
   fst (resetPassword req w st) <> Next InvalidResetToken) /\
  (forall err, fst (verifyEmail req st) = Next err ->
               exists token, query_token req = Some token) /\
  (forall err, fst (resetPassword req w st) = Next err ->
               exists token, query_token req = Some token).
Proof.
  unfold verifyEmail, resetPassword.
  destruct (query_token req) as [token|].
  - split; [discriminate|]. split; intros; now exists token.
  - split; [|split; intros err H; discriminate H].
    intros _. repeat split; discriminate.
Qed.

End Gate.

(** The pre-check of the gate does not depend on how tokens are verified:
    two deployments that differ in every collaborator turn the same
    requests away at it. *)
Lemma protected_precheck_before_jwt
  (C1 C2 : Collaborators) (req : Request) (w : World) (st : Store) :
  truthy (bearer req) = false \/ shorter_than 20 (bearer req) = true ->
  @protected C1 req w st = @protected C2 req w st.
Proof.
  intros H. now rewrite (@protected_precheck C1), (@protected_precheck C2).
Qed.

(** ** The handlers run on the example collection *)

Example demo_verify :
  @verifyEmail demo (demoLink "tok1") demoStore1 =
  (Json 200 "Email verified successfully.", demoStore2).
Proof. reflexivity. Qed.

Example demo_login_unverified :
  @login demo (demoLogin "a@x.com" "Pw123456") demoStore1 =
  (Next (mkAppError
     "Your email is not verified. Please verify your email address." 401),
   demoStore1).
Proof. reflexivity. Qed.

Example demo_login :
  @login demo (demoLogin "a@x.com" "Pw123456") demoStore2 =
  (SendToken (mkUser 1 "a@x.com" "$2b$12$Pw123456" true (Some "sha256:tok1")
                     None None) 200 demoSessionToken,
   demoStore2).
Proof. reflexivity. Qed.

Example demo_forgot :
  @forgotPassword demo demoForgot (mkWorld 1000 "rst1" true) demoStore2 =
  (Json 200 "Password reset email sent. Please check your email.", demoStore3).
Proof. reflexivity. Qed.

Example demo_reset :
  @resetPassword demo (demoReset "rst1") (mkWorld 2000 "" true) demoStore3 =
  (SendToken (mkUser 1 "a@x.com" "$2b$12$NewPw123" true (Some "sha256:tok1")
                     None None) 200 demoSessionToken,
   demoStore4).
Proof. reflexivity. Qed.

Example demo_reset_mismatch :
  @resetPassword demo
     (mkRequest None (Some "NewPw123") (Some "NewPw124") (Some "rst1") None)
     (mkWorld 2000 "" true) demoStore3 =
  (Throw ValidationError, demoStore3).
Proof. reflexivity. Qed.

Example demo_protected :
  @protected demo (demoAuthorized (Some ("Bearer " ++ demoSessionToken))) demoNow
             demoStore2 =
  (NextUser (mkUser 1 "a@x.com" "$2b$12$Pw123456" true (Some "sha256:tok1")
                    None None),
   demoStore2).
Proof. reflexivity. Qed.

Example demo_protected_forged :
  @protected demo (demoAuthorized (Some "Bearer abcdefghijklmnopqrstuvwxyz")) demoNow
             demoStore2 =
  (Throw JsonWebTokenError, demoStore2).
Proof. reflexivity. Qed.

(** ** The properties at the example collection *)

(** The second redemption of a@x.com's verification token is answered with
    success, not with the invalid-token error. *)
Lemma verifyEmail_second_redemption_succeeds :
  @signup demo demoSignup (mkWorld 1000 "tok1" true) [] =
    (Json 201 "Verification email sent. Please verify your email address.",
     demoStore1) /\
  @verifyEmail demo (demoLink "tok1") demoStore1 =
    (Json 200 "Email verified successfully.", demoStore2) /\
  @verifyEmail demo (demoLink "tok1") demoStore2 =
    (Json 200 "Email verified successfully.", demoStore2) /\
  fst (@verifyEmail demo (demoLink "tok1") demoStore2)
    <> Next InvalidVerificationToken.
Proof.
  split; [reflexivity|]. split; [reflexivity|]. split; [reflexivity|].
  discriminate.
Qed.

Lemma verifyEmail_redeem_twice_witness :
  @signup demo demoSignup (mkWorld 1000 "tok1" true) [] =
    (Json 201 "Verification email sent. Please verify your email address.",
     demoStore1) /\
  (forall v, In v [] ->
             emailVerificationToken v <> Some (@sha256hex demo "tok1")) /\
  query_token (demoLink "tok1") = Some "tok1" /\
  exists u st2,
    findOne (by_email (Some "a@x.com")) demoStore1 = Some u /\
    isVerified u = false /\
    @verifyEmail demo (demoLink "tok1") demoStore1 =
      (Json 200 "Email verified successfully.", st2) /\
    findOne (by_email (Some "a@x.com")) st2 = Some (set_isVerified true u) /\
    isVerified (set_isVerified true u) = true /\
    @verifyEmail demo (demoLink "tok1") st2 =
      (Json 200 "Email verified successfully.", st2).
Proof.
  split; [reflexivity|]. split; [intros v []|]. split; [reflexivity|].
  exact (proj1 (@verifyEmail_redeem_twice demo demoSignup (demoLink "tok1")
           (mkWorld 1000 "tok1" true) [] demoStore1 _
           eq_refl (fun v (H : In v []) => match H with end) eq_refl)).
Defined.

Lemma wf_demoStore1 : wf_store demoStore1.
Proof. repeat constructor. intros []. Defined.

Lemma verifyEmail_frame_witness :
  wf_store demoStore1 /\
  @verifyEmail demo (demoLink "tok1") demoStore1 =
    (Json 200 "Email verified successfully.", demoStore2) /\
  exists token u,
    In u demoStore1 /\
    emailVerificationToken u = Some (@sha256hex demo token) /\
    findOne (by_emailVerificationToken (@sha256hex demo token)) demoStore2
      = Some (set_isVerified true u).
Proof.
  split; [exact wf_demoStore1|]. split; [reflexivity|].
  destruct (@verifyEmail_frame demo (demoLink "tok1") demoStore1 demoStore2
              wf_demoStore1 eq_refl)
    as (token & u & _ & Hin & Hfp & _ & _ & _ & _ & _ & _ & _ & Hfind).
  exists token, u. auto.
Defined.

Lemma signup_mail_failure_persists_witness :
  body_email demoSignup = Some "a@x.com" /\
  body_password demoSignup = Some "Pw123456" /\
  findOne (by_email (Some "a@x.com")) [] = None /\
  @validate demo "a@x.com" "Pw123456" (body_confirmPassword demoSignup) = true /\
  mailDelivered (mkWorld 1000 "tok1" false) = false /\
  @signup demo demoSignup (mkWorld 1000 "tok1" false) [] =
    (Throw SendEmailError, demoStore1) /\
  demoStore1 <> [] /\
  @signup demo demoSignup (mkWorld 2000 "tok2" true) demoStore1 =
    (Next (mkAppError "User already exists with this email address." 400),
     demoStore1).
Proof.
  do 5 (split; [reflexivity|]).
  destruct (@signup_mail_failure_persists demo demoSignup
              (mkWorld 1000 "tok1" false) [] "a@x.com" "Pw123456"
              eq_refl eq_refl eq_refl eq_refl eq_refl)
    as (Hrun & Hne & _ & Hagain).
  split; [exact Hrun|]. split; [exact Hne|]. exact (Hagain _).
Defined.

Lemma forgotPassword_rollback_witness :
  findOne (by_email (body_email demoForgot)) demoStore2
    = Some (mkUser 1 "a@x.com" "$2b$12$Pw123456" true (Some "sha256:tok1")
                   None None) /\
  mailDelivered (mkWorld 1000 "rst1" false) = false /\
  @forgotPassword demo demoForgot (mkWorld 1000 "rst1" false) demoStore2 =
    (Next ResetEmailFailed, demoStore2) /\
  @resetPassword demo (demoReset "rst1") (mkWorld 2000 "" true) demoStore2 =
    (Next InvalidResetToken, demoStore2).
Proof.
  split; [reflexivity|]. split; [reflexivity|].
  destruct (@forgotPassword_rollback demo demoForgot
              (mkWorld 1000 "rst1" false) demoStore2 _ eq_refl eq_refl)
    as (_ & _ & Hrun & Hsame & _ & _ & _ & _ & Hdead).
  split.
  - rewrite Hrun. reflexivity.
  - apply (Hdead (demoReset "rst1") (mkWorld 2000 "" true) eq_refl).
    intros v [<-|[]] Hne. now destruct Hne.
Defined.

Lemma resetPassword_single_use_witness :
  query_token (demoReset "rst1") = Some "rst1" /\
  body_password (demoReset "rst1") = Some "NewPw123" /\
  (exists u,
     findOne (by_passwordResetToken (@sha256hex demo "rst1") 2000) demoStore3
       = Some u /\
     @validate demo (email u) "NewPw123"
        (body_confirmPassword (demoReset "rst1")) = true /\
     forall v, In v demoStore3 ->
               passwordResetToken v = Some (@sha256hex demo "rst1") ->
               _id v = _id u) /\
  @resetPassword demo (demoReset "rst1") (mkWorld 2000 "" true) demoStore3 =
    (SendToken (mkUser 1 "a@x.com" "$2b$12$NewPw123" true (Some "sha256:tok1")
                       None None) 200 demoSessionToken,
     demoStore4) /\
  @resetPassword demo (demoReset "rst1") (mkWorld 3000 "" true) demoStore4 =
    (Next InvalidResetToken, demoStore4).
Proof.
  split; [reflexivity|]. split; [reflexivity|].
  assert (Huniq : forall v, In v demoStore3 ->
            passwordResetToken v = Some (@sha256hex demo "rst1") ->
            _id v = 1).
  { intros v [<-|[]] _. reflexivity. }
  split.
  - eexists. split; [reflexivity|]. split; [reflexivity|]. exact Huniq.
  - split; [reflexivity|].
    destruct (@resetPassword_single_use demo (demoReset "rst1")
                (mkWorld 2000 "" true) demoStore3 "rst1" "NewPw123" _
                eq_refl eq_refl eq_refl eq_refl Huniq)
      as (u' & Hrun & _ & _ & _ & _ & _ & _ & Hagain).
    change (@resetPassword demo (demoReset "rst1") (mkWorld 2000 "" true)
              demoStore3)
      with (SendToken (mkUser 1 "a@x.com" "$2b$12$NewPw123" true
                         (Some "sha256:tok1") None None) 200 demoSessionToken,
            demoStore4) in Hrun.
    apply (f_equal snd) in Hrun. cbn [snd] in Hrun. rewrite Hrun.
    exact (Hagain (demoReset "rst1") (mkWorld 3000 "" true) eq_refl).
Defined.

Lemma login_failure_indistinguishable_witness :
  truthy (body_email (demoLogin "b@x.com" "Pw123456")) = true /\
  truthy (body_password (demoLogin "b@x.com" "Pw123456")) = true /\
  truthy (body_email (demoLogin "a@x.com" "Pw654321")) = true /\
  truthy (body_password (demoLogin "a@x.com" "Pw654321")) = true /\
  findOne (by_email (Some "b@x.com")) demoStore2 = None /\
  (exists u,
     findOne (by_email (Some "a@x.com")) demoStore2 = Some u /\
     @matchPassword demo "Pw654321" (password u) = false) /\
  @login demo (demoLogin "b@x.com" "Pw123456") demoStore2 =
    (Next InvalidCredentials, demoStore2) /\
  @login demo (demoLogin "a@x.com" "Pw654321") demoStore2 =
    (Next InvalidCredentials, demoStore2).
Proof.
  do 5 (split; [reflexivity|]).
  split; [eexists; split; reflexivity|].
  destruct (@login_failure_indistinguishable demo
              (demoLogin "b@x.com" "Pw123456") (demoLogin "a@x.com" "Pw654321")
              demoStore2 demoStore2 _ "Pw654321"
              eq_refl eq_refl eq_refl eq_refl eq_refl eq_refl eq_refl eq_refl)
    as (H1 & H2 & _).
  split; [exact H1|exact H2].
Defined.

Lemma resetPassword_invalid_or_expired_witness :
  query_token (demoReset "rst1") = Some "rst1" /\
  (forall v, In v demoStore2 ->
             passwordResetToken v <> Some (@sha256hex demo "rst1")) /\
  @resetPassword demo (demoReset "rst1") (mkWorld 2000 "" true) demoStore2 =
    (Next InvalidResetToken, demoStore2) /\
  (601000 <= now (mkWorld 601000 "" true))%Z /\
  @resetPassword demo (demoReset "rst1") (mkWorld 601000 "" true) demoStore3 =
    (Next InvalidResetToken, demoStore3) /\
  (1000 + 10 * 60 * 1000 <= now (mkWorld 602000 "" true))%Z /\
  @resetPassword demo (demoReset "rst1") (mkWorld 602000 "" true) demoStore3 =
    (Next InvalidResetToken, demoStore3).
Proof.
  assert (Hnone : forall v, In v demoStore2 ->
            passwordResetToken v <> Some (@sha256hex demo "rst1")).
  { intros v [<-|[]]. discriminate. }
  assert (Huniq : forall u, In u demoStore3 ->
            forall v, In v demoStore3 ->
              passwordResetToken v = Some (@sha256hex demo "rst1") -> v = u).
  { intros u [<-|[]] v [<-|[]] _. reflexivity. }
  split; [reflexivity|]. split; [exact Hnone|].
  split.
  { exact (proj1 (@resetPassword_invalid_or_expired demo (demoReset "rst1")
                    (mkWorld 2000 "" true) demoStore2 "rst1" eq_refl) Hnone). }
  split; [simpl; lia|].
  split.
  { refine (proj1 (proj2 (@resetPassword_invalid_or_expired demo
              (demoReset "rst1") (mkWorld 601000 "" true) demoStore3 "rst1"
              eq_refl)) _ 601000%Z (or_introl eq_refl) eq_refl _ eq_refl _).
    - now apply Huniq; left.
    - simpl; lia. }
  split; [simpl; lia|].
  refine (proj2 (proj2 (@resetPassword_invalid_or_expired demo
            (demoReset "rst1") (mkWorld 602000 "" true) demoStore3 "rst1"
            eq_refl)) _ 1000%Z (or_introl eq_refl) eq_refl _ eq_refl _).
  - now apply Huniq; left.
  - simpl; lia.
Defined.

Lemma protected_gate_witness :
  headers_authorization (demoAuthorized None) = None /\
  @protected demo (demoAuthorized None) demoNow demoStore2 =
    (Next InvalidTokenProvided, demoStore2) /\
  String.prefix "Bearer" "Basic dXNlcjpwYXNzd29yZDEyMzQ1Njc4" = false /\
  @protected demo (demoAuthorized (Some "Basic dXNlcjpwYXNzd29yZDEyMzQ1Njc4"))
             demoNow demoStore2 =
    (Next InvalidTokenProvided, demoStore2) /\
  nth_error (split " " "Bearer") 1 = None /\
  @protected demo (demoAuthorized (Some "Bearer")) demoNow demoStore2 =
    (Next InvalidTokenProvided, demoStore2) /\
  bearer (demoAuthorized (Some "Bearer abc.def.ghi")) = Some "abc.def.ghi" /\
  String.length "abc.def.ghi" < 20 /\
  @protected demo (demoAuthorized (Some "Bearer abc.def.ghi")) demoNow
             demoStore2 =
    (Next InvalidTokenProvided, demoStore2) /\
  bearer (demoAuthorized (Some "Bearer abcdefghijklmnopqrstuvwxyz"))
    = Some "abcdefghijklmnopqrstuvwxyz" /\
  20 <= String.length "abcdefghijklmnopqrstuvwxyz" /\
  @jwtVerify demo (now demoNow) "abcdefghijklmnopqrstuvwxyz" = None /\
  @protected demo (demoAuthorized (Some "Bearer abcdefghijklmnopqrstuvwxyz"))
             demoNow demoStore2 =
    (Throw JsonWebTokenError, demoStore2) /\
  bearer demoBearer = Some demoSessionToken /\
  20 <= String.length demoSessionToken /\
  @jwtVerify demo (now demoNow) demoSessionToken = Some 1 /\
  findById 1 [] = None /\
  @protected demo demoBearer demoNow [] = (Next UserNoLongerExists, []) /\
  (exists u,
     findById 1 demoStore2 = Some u /\
     @protected demo demoBearer demoNow demoStore2 = (NextUser u, demoStore2)).
Proof.
  assert (Hlen : 20 <= String.length demoSessionToken) by (vm_compute; lia).
  assert (Hlen' : 20 <= String.length "abcdefghijklmnopqrstuvwxyz")
    by (vm_compute; lia).
  pose proof (@protected_gate demo) as G.
  split; [reflexivity|].
  split; [exact (proj1 (G (demoAuthorized None) demoNow demoStore2) eq_refl)|].
  split; [reflexivity|].
  split.
  { destruct (G (demoAuthorized (Some "Basic dXNlcjpwYXNzd29yZDEyMzQ1Njc4"))
                demoNow demoStore2) as (_ & H & _).
    exact (H _ eq_refl eq_refl). }
  split; [reflexivity|].
  split.
  { destruct (G (demoAuthorized (Some "Bearer")) demoNow demoStore2)
      as (_ & _ & H & _).
    exact (H _ eq_refl eq_refl). }
  split; [reflexivity|].
  split; [vm_compute; lia|].
  split.
  { destruct (G (demoAuthorized (Some "Bearer abc.def.ghi")) demoNow
                demoStore2) as (_ & _ & _ & H & _).
    apply (H _ eq_refl). vm_compute; lia. }
  split; [reflexivity|].
  split; [exact Hlen'|].
  split; [reflexivity|].
  split.
  { destruct (G (demoAuthorized (Some "Bearer abcdefghijklmnopqrstuvwxyz"))
                demoNow demoStore2) as (_ & _ & _ & _ & _ & H & _).
    exact (H _ eq_refl Hlen' eq_refl). }
  split; [reflexivity|].
  split; [exact Hlen|].
  split; [reflexivity|].
  split; [reflexivity|].
  split.
  { destruct (G demoBearer demoNow []) as (_ & _ & _ & _ & _ & _ & H & _).
    exact (H _ 1 eq_refl Hlen eq_refl eq_refl). }
  eexists. split; [reflexivity|].
  destruct (G demoBearer demoNow demoStore2)
    as (_ & _ & _ & _ & _ & _ & _ & _ & H).
  exact (proj1 (H _ 1 _ eq_refl Hlen eq_refl eq_refl)).
Defined.

Lemma protected_not_logged_in_unreachable_witness :
  truthy (bearer (demoAuthorized None)) = false /\
  @protected demo (demoAuthorized None) demoNow demoStore2 =
    (Next InvalidTokenProvided, demoStore2) /\
  fst (@protected demo (demoAuthorized None) demoNow demoStore2) <> Next NotLoggedIn.
Proof.
  split; [reflexivity|].
  destruct (@protected_not_logged_in_unreachable demo (demoAuthorized None)
              demoNow demoStore2) as [Hnever Hcaught].
  split; [exact (Hcaught eq_refl)|exact Hnever].
Defined.

Lemma absent_token_throws_witness :
  query_token (mkRequest None (Some "NewPw123") (Some "NewPw123") None None)
    = None /\
  @verifyEmail demo
     (mkRequest None (Some "NewPw123") (Some "NewPw123") None None) demoStore3
    = (Throw TypeError, demoStore3) /\
  @resetPassword demo
     (mkRequest None (Some "NewPw123") (Some "NewPw123") None None)
     (mkWorld 2000 "" true) demoStore3
    = (Throw TypeError, demoStore3).
Proof.
  split; [reflexivity|].
  destruct (proj1 (@absent_token_throws demo
              (mkRequest None (Some "NewPw123") (Some "NewPw123") None None)
              (mkWorld 2000 "" true) demoStore3) eq_refl)
    as (Hv & Hr & _).
  split; [exact Hv|exact Hr].
Defined.

(** * Further properties of the controller *)

(** ** More on the collection *)

Lemma findOne_exists (p : User -> bool) (st : Store) (x : User) :
  In x st -> p x = true -> exists y, findOne p st = Some y /\ p y = true.
Proof.
  unfold findOne. induction st as [|v st IH]; simpl; [intros []|].
  intros Hin Hp. destruct (p v) eqn:Hv.
  - now exists v.
  - destruct Hin as [->|Hin]; [congruence|]. now apply IH.
Qed.

Lemma findById_wf (st : Store) (u : User) :
  wf_store st -> In u st -> findById (_id u) st = Some u.
Proof.
  intros Hwf Hin. unfold findById.
  destruct (findOne_exists (fun v => Nat.eqb (_id v) (_id u)) st u Hin
              (Nat.eqb_refl _)) as (y & Hf & Hy).
  rewrite Hf. f_equal. apply findOne_In in Hf as [Hyin _].
  apply (wf_id_inj st); auto. now apply Nat.eqb_eq.
Qed.

Lemma In_save_intro (u x : User) (st : Store) :
  In x st -> In (if Nat.eqb (_id x) (_id u) then u else x) (save u st).
Proof.
  intros Hin. unfold save.
  exact (in_map (fun v => if Nat.eqb (_id v) (_id u) then u else v) st x Hin).
Qed.

Lemma by_email_true (e : field) (u : User) :
  by_email e u = true -> e = Some (email u).
Proof.
  destruct e as [s|]; simpl; [|discriminate].
  intros H. apply String.eqb_eq in H. now subst.
Qed.

Lemma findOne_by_email_none (e : string) (st : Store) :
  findOne (by_email (Some e)) st = None -> ~ In e (map email st).
Proof.
  intros Hf Hin. apply in_map_iff in Hin as (v & Hv & Hin).
  pose proof (findOne_none_inv _ _ _ Hf Hin) as H. simpl in H.
  rewrite Hv, String.eqb_refl in H. discriminate.
Qed.

(** ** Signup, verification and login together *)

Section Accounts.

Context `{C : Collaborators}.

Lemma signup_then_found (e p : string) (w : World) (st : Store) :
  findOne (by_email (Some e)) st = None ->
  findOne (by_email (Some e)) (insert (created e p w st) st)
    = Some (created e p w st).
Proof.
  intros Hf. unfold insert. rewrite findOne_app_miss.
  - unfold findOne. cbn [find].
    replace (by_email (Some e) (created e p w st)) with true
      by (symmetry; apply String.eqb_refl).
    reflexivity.
  - intros v Hin. now apply (findOne_none_inv _ st).
Qed.

Lemma findOne_insert_email (e : string) (x : User) (st : Store) :
  findOne (by_email (Some e)) st = None -> email x = e ->
  findOne (by_email (Some e)) (insert x st) = Some x.
Proof.
  intros Hf He. unfold insert. rewrite findOne_app_miss.
  - unfold findOne. cbn [find by_email]. rewrite He, String.eqb_refl.
    reflexivity.
  - intros v Hin. now apply (findOne_none_inv _ st).
Qed.

(** Following the mailed link right after the signup verifies the new
    document in place. *)
Lemma verifyEmail_created
  (link : Request) (e p : string) (w : World) (st : Store) :
  (forall v, In v st ->
             emailVerificationToken v <> Some (sha256hex (randomToken w))) ->
  query_token link = Some (randomToken w) ->
  verifyEmail link (insert (created e p w st) st) =
  (Json 200 "Email verified successfully.",
   insert (set_isVerified true (created e p w st)) st).
Proof.
  intros Hfresh Hq. unfold verifyEmail. rewrite Hq. unfold insert at 1.
  rewrite findOne_app_miss.
  - unfold findOne. cbn [find].
    replace (by_emailVerificationToken (sha256hex (randomToken w))
               (created e p w st)) with true.
    + rewrite save_insert_fresh; [reflexivity|apply fresh_id_new|reflexivity].
    + symmetry. unfold by_emailVerificationToken. now apply field_eqb_eq.
  - intros v Hv. unfold by_emailVerificationToken.
    destruct (field_eqb _ _) eqn:E; [|reflexivity].
    apply field_eqb_eq in E. now apply Hfresh in E.
Qed.

(** X1.  A successful [signup] appends exactly one document and touches no
    other: the new document is unverified, has no reset pending, holds the
    fingerprint of the mailed token and the hash of the password, and
    neither its identifier nor its email was in the collection before. *)
Theorem signup_appends_unverified
  (req : Request) (w : World) (st st1 : Store) (m : string) :
  signup req w st = (Json 201 m, st1) ->
  exists u p,
    st1 = (st ++ [u])%list /\
    body_email req = Some (email u) /\
    body_password req = Some p /\
    password u = hashPassword p /\
    isVerified u = false /\
    emailVerificationToken u = Some (sha256hex (randomToken w)) /\
    passwordResetToken u = None /\
    passwordResetExpires u = None /\
    ~ In (_id u) (map _id st) /\
    ~ In (email u) (map email st).
Proof.
  intros H. apply signup_success_inv in H as (e & p & He & Hp & Hf & _ & ->).
  exists (created e p w st), p.
  split; [reflexivity|]. split; [exact He|]. split; [exact Hp|].
  do 5 (split; [reflexivity|]).
  split; [apply fresh_id_new|]. now apply findOne_by_email_none.
Qed.

(** X3.  Between signup and verification the right password does not log
    in: [login] answers 401 "not verified" and issues no token.  After the
    mailed link was followed the same request is answered with a session
    token for the verified account. *)
Theorem login_requires_verification
  (req link : Request) (w : World) (st st1 : Store) (m p : string) :
  signup req w st = (Json 201 m, st1) ->
  (forall v, In v st ->
             emailVerificationToken v <> Some (sha256hex (randomToken w))) ->
  query_token link = Some (randomToken w) ->
  truthy (body_email req) = true ->
  truthy (body_password req) = true ->
  body_password req = Some p ->
  matchPassword p (hashPassword p) = true ->
  login req st1 =
    (Next (mkAppError
       "Your email is not verified. Please verify your email address." 401),
     st1) /\
  exists st2 u',
    verifyEmail link st1 = (Json 200 "Email verified successfully.", st2) /\
    login req st2 = (SendToken u' 200 (signToken (_id u')), st2) /\
    body_email req = Some (email u') /\
    isVerified u' = true.
Proof.
  intros Hs Hfresh Hq Hte Htp Hp Hmatch.
  apply signup_success_inv in Hs as (e & p' & He & Hp' & Hnone & _ & ->).
  assert (p' = p) by congruence. subst p'.
  set (u := created e p w st).
  split.
  - unfold login. rewrite Hte, Htp, He, Hp. cbn [negb orb].
    rewrite (findOne_insert_email e u st Hnone eq_refl).
    change (password u) with (hashPassword p). rewrite Hmatch. reflexivity.
  - exists (insert (set_isVerified true u) st), (set_isVerified true u).
    split; [now apply verifyEmail_created|].
    split; [|split; [exact He|reflexivity]].
    unfold login. rewrite Hte, Htp, He, Hp. cbn [negb orb].
    rewrite (findOne_insert_email e (set_isVerified true u) st Hnone eq_refl).
    change (password (set_isVerified true u)) with (hashPassword p).
    rewrite Hmatch. reflexivity.
Qed.

(** X4.  [login] hands out a session token only for a stored document whose
    email is the one in the request, whose hash matches the password of the
    request and which is verified; the token is the one signed for that
    document's identifier, the status is 200 and nothing is written. *)
Theorem login_token_sound
  (req : Request) (st st' : Store) (u : User) (s : nat) (t : string) :
  login req st = (SendToken u s t, st') ->
  exists pw,
    In u st /\
    body_email req = Some (email u) /\
    body_password req = Some pw /\
    pw <> "" /\
    matchPassword pw (password u) = true /\
    isVerified u = true /\
    s = 200 /\ t = signToken (_id u) /\ st' = st.
Proof.
  unfold login. intros H.
  destruct (truthy (body_email req)) eqn:Hte; [|discriminate].
  destruct (truthy (body_password req)) eqn:Htp; [|discriminate].
  cbn [negb orb] in H.
  destruct (findOne _ st) as [v|] eqn:Hf; [|discriminate].
  destruct (body_password req) as [pw|] eqn:Hp; [|discriminate].
  destruct (matchPassword pw (password v)) eqn:Hm; [|discriminate].
  destruct (isVerified v) eqn:Hv; [|discriminate].
  cbn [negb] in H. injection H as <- <- <- <-.
  apply findOne_In in Hf as [Hin He]. apply by_email_true in He.
  apply truthy_Some in Htp as (s' & Hs' & Hne). injection Hs' as <-.
  exists pw. repeat split; auto.
Qed.

(** X5.  [verifyEmail] is idempotent on every collection: serving the same
    request a second time returns what the first returned and leaves the
    collection as the first left it. *)
Theorem verifyEmail_idempotent (req : Request) (st : Store) :
  verifyEmail req (snd (verifyEmail req st)) = verifyEmail req st.
Proof.
  unfold verifyEmail. destruct (query_token req) as [token|]; [|reflexivity].
  destruct (findOne _ st) as [u|] eqn:Hf; cbn [snd].
  - rewrite (findOne_save_hit _ u (set_isVerified true u) st Hf eq_refl).
    + replace (set_isVerified true (set_isVerified true u))
        with (set_isVerified true u) by reflexivity.
      now rewrite save_save.
    + apply findOne_In in Hf as [_ Hp]. exact Hp.
  - now rewrite Hf.
Qed.

End Accounts.

(** ** Reading the [Authorization] header *)

Lemma split_not_nil (c : ascii) (s : string) : split c s <> [].
Proof.
  destruct s as [|a s]; simpl; [discriminate|].
  destruct (Ascii.eqb a c); [discriminate|].
  destruct (split c s); discriminate.
Qed.

Lemma split_spaceless (s : string) :
  spaceless s = true -> split " " s = [s].
Proof.
  induction s as [|a s IH]; simpl; [reflexivity|].
  intros H. apply andb_true_iff in H as [Ha Hs].
  apply negb_true_iff in Ha. rewrite Ha, (IH Hs). reflexivity.
Qed.

Lemma split_first_word (x r : string) :
  spaceless x = true ->
  split " " (x ++ String " " r) = x :: split " " r.
Proof.
  induction x as [|a x IH]; simpl; [reflexivity|].
  intros H. apply andb_true_iff in H as [Ha Hx].
  apply negb_true_iff in Ha. rewrite Ha, (IH Hx). reflexivity.
Qed.

Lemma spaceless_app (x y : string) :
  spaceless x = true -> spaceless y = true -> spaceless (x ++ y) = true.
Proof.
  induction x as [|a x IH]; simpl; [auto|].
  intros H Hy. apply andb_true_iff in H as [Ha Hx].
  rewrite Ha. simpl. now apply IH.
Qed.

Lemma append_empty_r (s : string) : s ++ "" = s.
Proof. induction s as [|a s IH]; simpl; [reflexivity|now rewrite IH]. Qed.

Lemma append_assoc (a b c : string) : (a ++ b) ++ c = a ++ b ++ c.
Proof. induction a as [|x a IH]; simpl; [reflexivity|now rewrite IH]. Qed.

Lemma bearer_of_header (req : Request) (y : string) :
  headers_authorization req = Some ("Bearer" ++ y) ->
  bearer req = nth_error (split " " ("Bearer" ++ y)) 1.
Proof. unfold bearer. intros ->. destruct y; reflexivity. Qed.

Section Session.

Context `{C : Collaborators}.

(** X6.  The token the gate reads is the second blank-separated word of the
    header: any first word that begins with [Bearer] is taken for the
    scheme, and whatever follows the token after a further blank is
    ignored. *)
Theorem bearer_second_word (req : Request) (x t rest : string) :
  spaceless x = true ->
  spaceless t = true ->
  (headers_authorization req = Some ("Bearer" ++ x ++ " " ++ t) ->
   bearer req = Some t) /\
  (headers_authorization req = Some ("Bearer" ++ x ++ " " ++ t ++ " " ++ rest) ->
   bearer req = Some t).
Proof.
  intros Hx Ht.
  assert (Hscheme : spaceless ("Bearer" ++ x) = true)
    by (apply spaceless_app; [reflexivity|exact Hx]).
  split; intros H; rewrite (bearer_of_header req _ H).
  - replace ("Bearer" ++ x ++ " " ++ t) with (("Bearer" ++ x) ++ String " " t)
      by (rewrite append_assoc; reflexivity).
    rewrite split_first_word by exact Hscheme.
    rewrite split_spaceless by exact Ht. reflexivity.
  - replace ("Bearer" ++ x ++ " " ++ t ++ " " ++ rest)
      with (("Bearer" ++ x) ++ String " " (t ++ String " " rest))
      by (rewrite append_assoc; reflexivity).
    rewrite split_first_word by exact Hscheme.
    rewrite split_first_word by exact Ht. reflexivity.
Qed.

(** X7.  The gate lets a request through only with a header that carries a
    token of at least 20 characters which [jwt.verify] accepts, and the
    user it attaches is a stored document whose identifier is the subject
    of that token.  It writes nothing. *)
Theorem protected_admits_only_verified_tokens
  (req : Request) (w : World) (st st' : Store) (u : User) :
  protected req w st = (NextUser u, st') ->
  exists a t,
    headers_authorization req = Some a /\
    String.prefix "Bearer" a = true /\
    nth_error (split " " a) 1 = Some t /\
    20 <= String.length t /\
    jwtVerify (now w) t = Some (_id u) /\
    In u st /\ st' = st.
Proof.
  unfold protected. intros H.
  destruct (truthy (bearer req)) eqn:Ht; [|discriminate].
  destruct (shorter_than 20 (bearer req)) eqn:Hs; [discriminate|].
  cbn [negb orb] in H.
  destruct (bearer req) as [t|] eqn:Hb; [|discriminate].
  destruct (jwtVerify (now w) t) as [i|] eqn:Hv; [|discriminate].
  destruct (findById i st) as [v|] eqn:Hf; [|discriminate].
  injection H as <- <-.
  apply findOne_In in Hf as [Hin Hid]. apply Nat.eqb_eq in Hid. subst i.
  unfold bearer in Hb.
  destruct (headers_authorization req) as [a|]; [|discriminate].
  destruct (truthy (Some a)); [|discriminate].
  destruct (String.prefix "Bearer" a) eqn:Hp; [|discriminate].
  cbn [andb] in Hb. exists a, t.
  repeat split; auto. unfold shorter_than in Hs. now apply Nat.ltb_ge.
Qed.

(** X8.  The token [login] hands out opens the gate for the account that
    logged in: sent back as [Bearer <token>] against the same collection,
    it makes the gate attach the very document [login] answered with.
    This holds for a signer whose tokens verify to their subject at the
    time of the second request, are at least 20 characters long and
    contain no blank. *)
Theorem login_token_opens_gate
  (req areq : Request) (w : World) (st : Store) (u : User) (tok : string) :
  wf_store st ->
  login req st = (SendToken u 200 tok, st) ->
  jwtVerify (now w) tok = Some (_id u) ->
  20 <= String.length tok ->
  spaceless tok = true ->
  headers_authorization areq = Some ("Bearer " ++ tok) ->
  protected areq w st = (NextUser u, st).
Proof.
  intros Hwf Hlogin Hjwt Hlen Hsp Hh.
  assert (Hin : In u st).
  { revert Hlogin. unfold login.
    destruct (negb (truthy (body_email req)) || negb (truthy (body_password req)));
      [discriminate|].
    destruct (findOne _ st) as [v|] eqn:Hf; [|discriminate].
    destruct (body_password req) as [pw|]; [|discriminate].
    destruct (negb (matchPassword pw (password v))); [discriminate|].
    destruct (negb (isVerified v)); [discriminate|].
    intros H. injection H as <- _. now apply findOne_In in Hf. }
  assert (Hb : bearer areq = Some tok).
  { rewrite (bearer_of_header areq _ Hh).
    change ("Bearer" ++ " " ++ tok) with ("Bearer" ++ String " " tok).
    rewrite split_first_word by reflexivity.
    now rewrite split_spaceless. }
  rewrite (protected_past_precheck areq w st tok Hb Hlen), Hjwt.
  now rewrite findById_wf.
Qed.

End Session.

(** ** What a sequence of requests keeps *)

Lemma lives_on_refl (u : User) : lives_on u u.
Proof. unfold lives_on. auto. Qed.

Lemma lives_on_trans (a b c : User) :
  lives_on a b -> lives_on b c -> lives_on a c.
Proof.
  unfold lives_on. intros (H1 & H2 & H3 & H4) (K1 & K2 & K3 & K4).
  repeat split; try congruence. auto.
Qed.

Lemma persists_refl (st : Store) : persists st st.
Proof. intros u Hin. exists u. split; [exact Hin|apply lives_on_refl]. Qed.

Lemma persists_trans (a b c : Store) :
  persists a b -> persists b c -> persists a c.
Proof.
  intros Hab Hbc u Hin. destruct (Hab u Hin) as (v & Hv & Huv).
  destruct (Hbc v Hv) as (x & Hx & Hvx). exists x.
  split; [exact Hx|]. now apply lives_on_trans with v.
Qed.

Lemma persists_insert (u : User) (st : Store) : persists st (insert u st).
Proof.
  intros v Hin. exists v. split; [|apply lives_on_refl].
  unfold insert. apply in_or_app. now left.
Qed.

Lemma persists_save (u u' : User) (st : Store) :
  wf_store st -> In u st -> lives_on u u' -> persists st (save u' st).
Proof.
  intros Hwf Hin Hl v Hv. pose proof (In_save_intro u' v st Hv) as Hs.
  destruct (Nat.eqb_spec (_id v) (_id u')) as [E|E].
  - exists u'. split; [exact Hs|].
    assert (v = u) as ->; [|exact Hl].
    apply (wf_id_inj st); auto. destruct Hl as [Hid _]. congruence.
  - exists v. split; [exact Hs|apply lives_on_refl].
Qed.

Lemma save_emails (u u' : User) (st : Store) :
  wf_store st -> In u st -> lives_on u u' ->
  map email (save u' st) = map email st.
Proof.
  intros Hwf Hin (Hid & He & _). unfold save. rewrite map_map.
  apply map_ext_in. intros v Hv.
  destruct (Nat.eqb_spec (_id v) (_id u')) as [E|E]; [|reflexivity].
  assert (v = u) as ->; [|exact He].
  apply (wf_id_inj st); auto. congruence.
Qed.

Section Sequences.

Context `{C : Collaborators}.

Variable U : UserController.

(** The three ways in which a handler of the auth controller leaves the
    collection: untouched, with one new document for an email that was
    not there, or with one document saved under its own identifier. *)
Lemma auth_route_writes (r : Route) (req : Request) (w : World) (st : Store) :
  authRoute r = true ->
  snd (router U r req w st) = st \/
  (exists e p, findOne (by_email (Some e)) st = None /\
               snd (router U r req w st) = insert (created e p w st) st) \/
  (exists u u', In u st /\ lives_on u u' /\
                snd (router U r req w st) = save u' st).
Proof.
  destruct r; try discriminate; intros _; cbn [router].
  - (* signup *)
    unfold signup, saveNew, createEmailVerificationToken.
    destruct (findOne (by_email (body_email req)) st) eqn:Hf; [now left|].
    destruct (body_email req) as [e|]; [|now left].
    destruct (body_password req) as [p|]; [|now left].
    cbn [email password].
    destruct (validate e p (body_confirmPassword req)); [|now left].
    right; left. exists e, p. split; [exact Hf|].
    destruct (mailDelivered w); reflexivity.
  - (* verifyEmail *)
    unfold verifyEmail. destruct (query_token req) as [t|]; [|now left].
    destruct (findOne _ st) as [u|] eqn:Hf; [|now left].
    right; right. exists u, (set_isVerified true u).
    apply findOne_In in Hf as [Hin _].
    split; [exact Hin|]. split; [|reflexivity]. unfold lives_on. auto.
  - (* login *)
    left. apply login_no_write.
  - (* logout *)
    now left.
  - (* forgotPassword *)
    unfold forgotPassword, createPasswordResetToken.
    destruct (findOne _ st) as [u|] eqn:Hf; [|now left].
    apply findOne_In in Hf as [Hin _].
    right; right. destruct (mailDelivered w); cbn [snd].
    + eexists u, _. split; [exact Hin|]. split; [|reflexivity].
      unfold lives_on. auto.
    + eexists u, _. split; [exact Hin|]. split; [|now apply save_save].
      unfold lives_on. auto.
  - (* resetPassword *)
    unfold resetPassword. destruct (query_token req) as [t|]; [|now left].
    destruct (findOne _ st) as [u|] eqn:Hf; [|now left].
    destruct (body_password req) as [p|]; [|now left].
    destruct (validate _ _ _); [|now left].
    apply findOne_In in Hf as [Hin _].
    right; right. eexists u, _. split; [exact Hin|]. split; [|reflexivity].
    unfold lives_on. auto.
Qed.

Lemma auth_route_unique_keys
  (r : Route) (req : Request) (w : World) (st : Store) :
  authRoute r = true -> unique_keys st ->
  unique_keys (snd (router U r req w st)).
Proof.
  intros Hr [Hwf Hem].
  destruct (auth_route_writes r req w st Hr)
    as [->|[(e & p & Hf & ->)|(u & u' & Hin & Hl & ->)]].
  - now split.
  - split; [now apply wf_insert|].
    unfold insert. rewrite map_app. cbn [map email created].
    apply NoDup_app; [exact Hem|constructor; [intros []|constructor]|].
    intros x Hx [<-|[]]. now apply (findOne_by_email_none _ _ Hf).
  - split; [now apply wf_save|]. now rewrite (save_emails u u' st).
Qed.

Lemma auth_route_persists
  (r : Route) (req : Request) (w : World) (st : Store) :
  authRoute r = true -> wf_store st ->
  persists st (snd (router U r req w st)).
Proof.
  intros Hr Hwf.
  destruct (auth_route_writes r req w st Hr)
    as [->|[(e & p & Hf & ->)|(u & u' & Hin & Hl & ->)]].
  - apply persists_refl.
  - apply persists_insert.
  - now apply persists_save with u.
Qed.

(** X9.  Identifiers and emails stay unique: a collection in which no two
    documents share an identifier or an email is still such a collection
    after any sequence of requests to the routes of the auth controller. *)
Theorem serve_unique_keys
  (calls : list (Route * Request * World)) (st : Store) :
  Forall (fun c => authRoute (fst (fst c)) = true) calls ->
  unique_keys st ->
  unique_keys (serve U calls st).
Proof.
  intros Hall. revert st.
  induction Hall as [|[[r req] w] calls Hr _ IH]; intros st Hk; [exact Hk|].
  cbn [serve]. apply IH. now apply auth_route_unique_keys.
Qed.

(** X10.  No request to the auth controller deletes an account or takes
    back a verification: after any sequence of such requests every document
    is still stored under its identifier with the same email and the same
    verification fingerprint, and is verified if it was. *)
Theorem serve_persists
  (calls : list (Route * Request * World)) (st : Store) :
  Forall (fun c => authRoute (fst (fst c)) = true) calls ->
  unique_keys st ->
  persists st (serve U calls st).
Proof.
  intros Hall. revert st.
  induction Hall as [|[[r req] w] calls Hr _ IH]; intros st Hk;
    [apply persists_refl|].
  cbn [serve]. cbn [fst] in Hr.
  apply persists_trans with (snd (router U r req w st)).
  - apply auth_route_persists; [exact Hr|apply Hk].
  - apply IH. now apply auth_route_unique_keys.
Qed.

Lemma protected_success_inv
  (req : Request) (w : World) (st st' : Store) (u : User) :
  protected req w st = (NextUser u, st') ->
  exists t,
    bearer req = Some t /\ 20 <= String.length t /\
    jwtVerify (now w) t = Some (_id u) /\ In u st /\ st' = st.
Proof.
  unfold protected. intros H.
  destruct (truthy (bearer req)) eqn:Ht; [|discriminate].
  destruct (shorter_than 20 (bearer req)) eqn:Hs; [discriminate|].
  cbn [negb orb] in H.
  destruct (bearer req) as [t|] eqn:Hb; [|discriminate].
  destruct (jwtVerify (now w) t) as [i|] eqn:Hv; [|discriminate].
  destruct (findById i st) as [v|] eqn:Hf; [|discriminate].
  injection H as <- <-.
  apply findOne_In in Hf as [Hin Hid]. apply Nat.eqb_eq in Hid. subst i.
  exists t. repeat split; auto. unfold shorter_than in Hs.
  now apply Nat.ltb_ge.
Qed.

(** A document is still there, and the keys are still unique, after any
    sequence of requests to the auth controller. *)
Lemma serve_keeps
  (calls : list (Route * Request * World)) (st : Store) (u : User) :
  Forall (fun c => authRoute (fst (fst c)) = true) calls ->
  unique_keys st -> In u st ->
  unique_keys (serve U calls st) /\
  exists u', In u' (serve U calls st) /\ lives_on u u'.
Proof.
  intros Hall. revert st u.
  induction Hall as [|[[r req] w] calls Hr _ IH]; intros st u Hk Hin.
  - split; [exact Hk|]. exists u. split; [exact Hin|apply lives_on_refl].
  - cbn [serve]. cbn [fst] in Hr.
    destruct (auth_route_persists r req w st Hr (proj1 Hk) u Hin)
      as (u1 & Hin1 & Hl1).
    destruct (IH _ u1 (auth_route_unique_keys r req w st Hr Hk) Hin1)
      as (Hk' & u' & Hin' & Hl').
    split; [exact Hk'|]. exists u'. split; [exact Hin'|].
    now apply lives_on_trans with u1.
Qed.

(** X11.  Nothing the auth controller does revokes a session: a request
    the gate lets through is let through again, for the same account,
    after any sequence of signups, verifications, logins, logouts, reset
    requests and password resets, as long as [jwt.verify] still gives the
    token of the request the answer it gave the first time, that is, as
    long as the token has not expired in between. *)
Theorem session_survives
  (calls : list (Route * Request * World)) (areq : Request)
  (w w' : World) (st : Store) (u : User) :
  Forall (fun c => authRoute (fst (fst c)) = true) calls ->
  unique_keys st ->
  protected areq w st = (NextUser u, st) ->
  (forall t, bearer areq = Some t ->
             jwtVerify (now w') t = jwtVerify (now w) t) ->
  exists u',
    protected areq w' (serve U calls st) = (NextUser u', serve U calls st) /\
    lives_on u u'.
Proof.
  intros Hall Hk H Hstill.
  apply protected_success_inv in H as (t & Hb & Hlen & Hv & Hin & _).
  destruct (serve_keeps calls st u Hall Hk Hin)
    as ([Hwf' _] & u' & Hin' & Hl).
  exists u'. split; [|exact Hl].
  rewrite (protected_past_precheck areq w' _ t Hb Hlen).
  rewrite (Hstill t Hb), Hv.
  destruct Hl as [Hid _]. rewrite <- Hid.
  now rewrite findById_wf.
Qed.

(** X2.  Once an email signed up it stays taken: after the signup and any
    sequence of further requests to the auth controller, a [signup] with
    that email is turned away with the 400 duplicate error, whatever
    password it brings, and writes nothing. *)
Theorem signup_duplicate_rejected
  (calls : list (Route * Request * World)) (req req2 : Request)
  (w w2 : World) (st st1 : Store) (m : string) :
  unique_keys st ->
  signup req w st = (Json 201 m, st1) ->
  Forall (fun c => authRoute (fst (fst c)) = true) calls ->
  body_email req2 = body_email req ->
  signup req2 w2 (serve U calls st1) =
  (Next (mkAppError "User already exists with this email address." 400),
   serve U calls st1).
Proof.
  intros Hk Hs Hall Heq.
  assert (Hk1 : unique_keys st1).
  { pose proof (auth_route_unique_keys PostSignup req w st eq_refl Hk) as H.
    cbn [router] in H. now rewrite Hs in H. }
  apply signup_success_inv in Hs as (e & p & He & _ & Hf & _ & ->).
  assert (Hin : In (created e p w st) (insert (created e p w st) st)).
  { unfold insert. apply in_or_app. right. now left. }
  destruct (serve_keeps calls _ _ Hall Hk1 Hin)
    as (_ & u' & Hin' & _ & Hmail & _).
  destruct (findOne_exists (by_email (Some e)) _ u' Hin') as (y & Hy & _).
  { cbn [by_email]. rewrite Hmail. apply String.eqb_refl. }
  unfold signup. now rewrite Heq, He, Hy.
Qed.

End Sequences.

(** ** The reset flow from request to redemption *)

(** A filter finds the saved document when that document passes it and no
    document with another identifier does. *)
Lemma findOne_save_only (p : User -> bool) (u u' : User) (st : Store) :
  In u st -> _id u' = _id u -> p u' = true ->
  (forall v, In v st -> p v = true -> _id v = _id u) ->
  findOne p (save u' st) = Some u'.
Proof.
  unfold findOne, save. intros Hin Hid Hp Honly.
  induction st as [|v st IH]; [destruct Hin|]. cbn [map find].
  destruct (Nat.eqb_spec (_id v) (_id u')) as [E|E].
  - now rewrite Hp.
  - destruct (p v) eqn:Hv.
    + exfalso. apply E. rewrite Hid. apply Honly; [now left|exact Hv].
    + apply IH.
      * destruct Hin as [->|Hin]; [congruence|exact Hin].
      * intros x Hx. apply Honly. now right.
Qed.

Section ResetFlow.

Context `{C : Collaborators}.

Lemma login_with_password (req : Request) (st : Store) (u : User) (pw : string) :
  truthy (body_email req) = true ->
  truthy (body_password req) = true ->
  body_password req = Some pw ->
  findOne (by_email (body_email req)) st = Some u ->
  login req st =
  if matchPassword pw (password u)
  then if isVerified u
       then (SendToken u 200 (signToken (_id u)), st)
       else (Next (mkAppError
               "Your email is not verified. Please verify your email address."
               401), st)
  else (Next InvalidCredentials, st).
Proof.
  intros He Hp Hpw Hf. unfold login. rewrite He, Hp, Hf, Hpw. cbn [negb orb].
  destruct (matchPassword pw (password u)); [|reflexivity].
  destruct (isVerified u); reflexivity.
Qed.

(** X12.  [resetPassword] does not look at [isVerified]: redeeming a reset
    token of an account that never verified its email changes the password
    and hands out a session token, the account stays unverified, [login]
    with the new password is still refused as "not verified", and the gate
    lets the handed-out token through. *)
Theorem resetPassword_ignores_verification
  (req lreq areq : Request) (w w3 : World) (st : Store)
  (raw p : string) (u : User) :
  wf_store st ->
  query_token req = Some raw ->
  findOne (by_passwordResetToken (sha256hex raw) (now w)) st = Some u ->
  body_password req = Some p ->
  validate (email u) p (body_confirmPassword req) = true ->
  isVerified u = false ->
  findOne (by_email (Some (email u))) st = Some u ->
  body_email lreq = Some (email u) -> truthy (body_email lreq) = true ->
  body_password lreq = Some p -> truthy (body_password lreq) = true ->
  matchPassword p (hashPassword p) = true ->
  bearer areq = Some (signToken (_id u)) ->
  20 <= String.length (signToken (_id u)) ->
  jwtVerify (now w3) (signToken (_id u)) = Some (_id u) ->
  exists u',
    resetPassword req w st = (SendToken u' 200 (signToken (_id u)), save u' st) /\
    isVerified u' = false /\
    password u' = hashPassword p /\
    login lreq (save u' st) =
      (Next (mkAppError
         "Your email is not verified. Please verify your email address." 401),
       save u' st) /\
    protected areq w3 (save u' st) = (NextUser u', save u' st).
Proof.
  intros Hwf Hq Hf Hp Hv Hunv Hfe Hle Hlte Hlp Hltp Hm Hb Hlen Hjwt.
  set (u' := set_passwordResetExpires None
               (set_passwordResetToken None (set_password (hashPassword p) u))).
  exists u'.
  destruct (findOne_In _ _ _ Hf) as [Hin _].
  split; [|split; [exact Hunv|split; [reflexivity|split]]].
  - unfold resetPassword. now rewrite Hq, Hf, Hp, Hv.
  - rewrite (login_with_password lreq (save u' st) u' p Hlte Hltp Hlp).
    + change (password u') with (hashPassword p).
      change (isVerified u') with (isVerified u). now rewrite Hm, Hunv.
    + rewrite Hle. apply findOne_save_hit with (u := u); auto.
      apply String.eqb_refl.
  - rewrite (protected_past_precheck areq w3 _ _ Hb Hlen), Hjwt.
    change (_id u) with (_id u').
    rewrite findById_wf; [reflexivity|now apply wf_save|].
    pose proof (In_save_intro u' u st Hin) as Hs.
    change (_id u') with (_id u) in Hs. now rewrite Nat.eqb_refl in Hs.
Qed.

(** X13.  The token mailed by [forgotPassword] is redeemable until ten
    minutes after the request: [resetPassword] with that token, at any
    time before the expiry and with a password that passes validation,
    stores the hash of the new password and clears the reset; from then on
    [login] for that email is decided against the new hash alone, so a
    password the new hash does not match is answered with the invalid
    credentials error. *)
Theorem forgot_then_reset
  (freq rreq lreq : Request) (w w2 : World) (st : Store)
  (p pw : string) (u : User) :
  findOne (by_email (body_email freq)) st = Some u ->
  mailDelivered w = true ->
  (forall v, In v st ->
             passwordResetToken v = Some (sha256hex (randomToken w)) ->
             _id v = _id u) ->
  query_token rreq = Some (randomToken w) ->
  (now w2 < now w + 10 * 60 * 1000)%Z ->
  body_password rreq = Some p ->
  validate (email u) p (body_confirmPassword rreq) = true ->
  body_email lreq = body_email freq ->
  truthy (body_email lreq) = true -> truthy (body_password lreq) = true ->
  body_password lreq = Some pw ->
  exists st1 st2 u2,
    forgotPassword freq w st =
      (Json 200 "Password reset email sent. Please check your email.", st1) /\
    resetPassword rreq w2 st1 = (SendToken u2 200 (signToken (_id u)), st2) /\
    lives_on u u2 /\
    password u2 = hashPassword p /\
    passwordResetToken u2 = None /\
    passwordResetExpires u2 = None /\
    login lreq st2 =
      if matchPassword pw (hashPassword p)
      then if isVerified u
           then (SendToken u2 200 (signToken (_id u)), st2)
           else (Next (mkAppError
                   "Your email is not verified. Please verify your email address."
                   401), st2)
      else (Next InvalidCredentials, st2).
Proof.
  intros Hf Hm Honly Hq Hnow Hp Hv Hle Hlte Hltp Hlpw.
  destruct (findOne_In _ _ _ Hf) as [Hin Hmail].
  set (u1 := snd (createPasswordResetToken w u)).
  set (u2 := set_passwordResetExpires None
               (set_passwordResetToken None (set_password (hashPassword p) u1))).
  exists (save u1 st), (save u2 st), u2.
  assert (Hfound : findOne (by_passwordResetToken
                     (sha256hex (randomToken w)) (now w2)) (save u1 st)
                   = Some u1).
  { apply findOne_save_only with (u := u); auto.
    - unfold by_passwordResetToken, u1. cbn.
      rewrite String.eqb_refl. cbn. apply Z.ltb_lt. lia.
    - intros v Hvin Hpv. apply by_passwordResetToken_true in Hpv as [Ht _].
      now apply Honly. }
  split; [|split; [|split; [|split; [|split; [|split]]]]];
    try reflexivity.
  - unfold forgotPassword. rewrite Hf.
    unfold createPasswordResetToken in *. cbn [snd] in *. now rewrite Hm.
  - unfold resetPassword. rewrite Hq, Hfound, Hp.
    change (email u1) with (email u). rewrite Hv. cbn zeta.
    fold u2. now rewrite save_save.
  - unfold lives_on. auto.
  - rewrite (login_with_password lreq (save u2 st) u2 pw Hlte Hltp Hlpw).
    + reflexivity.
    + rewrite Hle. apply findOne_save_hit with (u := u); auto.
Qed.

(** X14.  One reset is pending per account: a second [forgotPassword] for
    the same email overwrites the fingerprint of the first, and the token
    mailed first redeems nothing afterwards, at any time. *)
Theorem forgotPassword_replaces_pending
  (freq rreq : Request) (w1 w2 w3 : World) (st : Store) (u : User) :
  findOne (by_email (body_email freq)) st = Some u ->
  mailDelivered w1 = true -> mailDelivered w2 = true ->
  sha256hex (randomToken w1) <> sha256hex (randomToken w2) ->
  (forall v, In v st ->
             passwordResetToken v = Some (sha256hex (randomToken w1)) ->
             _id v = _id u) ->
  query_token rreq = Some (randomToken w1) ->
  exists st1 st2,
    forgotPassword freq w1 st =
      (Json 200 "Password reset email sent. Please check your email.", st1) /\
    forgotPassword freq w2 st1 =
      (Json 200 "Password reset email sent. Please check your email.", st2) /\
    resetPassword rreq w3 st2 = (Next InvalidResetToken, st2).
Proof.
  intros Hf Hm1 Hm2 Hne Honly Hq.
  destruct (findOne_In _ _ _ Hf) as [Hin Hmail].
  set (u1 := snd (createPasswordResetToken w1 u)).
  set (u2 := snd (createPasswordResetToken w2 u1)).
  exists (save u1 st), (save u2 st).
  assert (Hf1 : findOne (by_email (body_email freq)) (save u1 st) = Some u1)
    by (apply findOne_save_hit with (u := u); auto).
  split; [|split].
  - unfold forgotPassword. rewrite Hf.
    unfold createPasswordResetToken in *. cbn [snd] in *. now rewrite Hm1.
  - unfold forgotPassword. rewrite Hf1.
    unfold createPasswordResetToken in *. cbn [snd] in *. rewrite Hm2.
    now rewrite save_save.
  - unfold resetPassword. rewrite Hq.
    rewrite findOne_save_miss; [reflexivity| |].
    + intros v Hv Hp. apply by_passwordResetToken_true in Hp as [Ht _].
      change (_id u2) with (_id u). now apply Honly.
    + unfold by_passwordResetToken, u2, u1. cbn.
      destruct (String.eqb_spec (sha256hex (randomToken w2))
                                (sha256hex (randomToken w1))) as [E|E];
        [now destruct Hne|reflexivity].
Qed.

End ResetFlow.

(** ** The guarded routes *)

Section Guarded.

Context `{C : Collaborators}.

Lemma guarded_cases
  (handler : Handler) (req : Request) (w : World) (st : Store) :
  (exists u t,
     bearer req = Some t /\ 20 <= String.length t /\
     jwtVerify (now w) t = Some (_id u) /\ In u st /\
     guarded handler req w st = handler req (Some u) st) \/
  guarded handler req w st = (Next InvalidTokenProvided, st) \/
  guarded handler req w st = (Next UserNoLongerExists, st) \/
  guarded handler req w st = (Throw JsonWebTokenError, st).
Proof.
  unfold guarded.
  destruct (protected req w st) as [o st'] eqn:Hp.
  destruct o as [s m|v s t|e|u|e];
    try (exfalso; revert Hp; unfold protected;
         destruct (negb (truthy (bearer req)) || shorter_than 20 (bearer req));
         [discriminate|];
         destruct (negb (truthy (bearer req))); [discriminate|];
         destruct (bearer req) as [t'|]; [|discriminate];
         destruct (jwtVerify (now w) t') as [i|]; [|discriminate];
         destruct (findById i st); discriminate).
  - (* the gate handed an error to next *)
    right. revert Hp. unfold protected.
    destruct (negb (truthy (bearer req)) || shorter_than 20 (bearer req)) eqn:H1.
    { intros H. injection H as <- <-. now left. }
    destruct (negb (truthy (bearer req))) eqn:H2.
    { apply orb_false_iff in H1 as [H1 _]. congruence. }
    destruct (bearer req) as [t'|]; [|discriminate].
    destruct (jwtVerify (now w) t') as [i|]; [|discriminate].
    destruct (findById i st); [discriminate|].
    intros H. injection H as <- <-. right. now left.
  - (* the gate attached a user *)
    left. apply protected_success_inv in Hp as (t & Hb & Hlen & Hv & Hin & ->).
    now exists u, t.
  - (* the gate threw *)
    right. right. right. revert Hp. unfold protected.
    destruct (negb (truthy (bearer req)) || shorter_than 20 (bearer req));
      [discriminate|].
    destruct (negb (truthy (bearer req))); [discriminate|].
    destruct (bearer req) as [t'|].
    + destruct (jwtVerify (now w) t') as [i|].
      * destruct (findById i st); discriminate.
      * intros H. now injection H as <- <-.
    + intros H. now injection H as <- <-.
Qed.

(** X15.  On both [/profile-update] routes the handler of the user
    controller runs only behind the gate: it is applied to the request and
    to a stored user whose identifier is the subject of a verified token of
    the request, or it is not applied at all and the request ends with one
    of the two 401 errors of the gate or with the exception of
    [jwt.verify], the collection untouched. *)
Theorem profile_routes_behind_gate
  (U : UserController) (req : Request) (w : World) (st : Store) :
  ((exists u t,
      bearer req = Some t /\ 20 <= String.length t /\
      jwtVerify (now w) t = Some (_id u) /\ In u st /\
      router U PatchProfileUpdate req w st = updateProfile U req (Some u) st) \/
   router U PatchProfileUpdate req w st = (Next InvalidTokenProvided, st) \/
   router U PatchProfileUpdate req w st = (Next UserNoLongerExists, st) \/
   router U PatchProfileUpdate req w st = (Throw JsonWebTokenError, st)) /\
  ((exists u t,
      bearer req = Some t /\ 20 <= String.length t /\
      jwtVerify (now w) t = Some (_id u) /\ In u st /\
      router U GetProfileUpdate req w st = getUserProfile U req (Some u) st) \/
   router U GetProfileUpdate req w st = (Next InvalidTokenProvided, st) \/
   router U GetProfileUpdate req w st = (Next UserNoLongerExists, st) \/
   router U GetProfileUpdate req w st = (Throw JsonWebTokenError, st)).
Proof.
  split; cbn [router]; apply guarded_cases.
Qed.

End Guarded.

(** ** The link editor *)

(** X16.  Typing into the link field never leaves it shorter than the base
    URL of the platform, lengths counted in UTF-16 code units: from a field
    that is at least that long, any sequence of input events ends in such
    a field again; [updateLink] is called for exactly the typed values that
    are long enough, in order and with the chosen platform, and the other
    values are dropped.  The field starts that long when the link has no
    URL of its own. *)
Theorem typing_keeps_base_length
  (getRightProfileUrl : JsString -> jsfield) (l : LinkProps) (index : nat)
  (values : list JsString) (s : LinkItemState) (base : JsString) :
  getRightProfileUrl (name l) = Some base ->
  at_least (List.length base) (linkUrl s) ->
  (exists s',
     typed getRightProfileUrl l index values s =
       Some (s', map (fun v => (index, mkLinkProps (links s) (Some v)))
                     (filter (fun v => Nat.leb (List.length base)
                                               (List.length v)) values)) /\
     at_least (List.length base) (linkUrl s') /\
     links s' = links s /\
     isLinkBoxOpen s' = isLinkBoxOpen s) /\
  (js_truthy (link l) = false ->
   at_least (List.length base)
            (linkUrl (initialState getRightProfileUrl l))).
Proof.
  intros Hb Hs. split.
  - revert s Hs. induction values as [|v values IH]; intros s Hs.
    + exists s. cbn. auto.
    + cbn [typed filter]. unfold handleUpdateLinkUrl. rewrite Hb.
      destruct (Nat.leb (List.length base) (List.length v)) eqn:Hv.
      * destruct (IH (mkLinkItemState (links s) (isLinkBoxOpen s) (Some v)))
          as (s' & Ht & Hl & Hk & Ho).
        { cbn. now apply Nat.leb_le. }
        exists s'. rewrite Ht. cbn [links isLinkBoxOpen] in *. cbn [map]. auto.
      * destruct (IH s Hs) as (s' & Ht & Hl & Hk & Ho).
        exists s'. rewrite Ht. auto.
  - intros Hl. unfold initialState, js_or. rewrite Hl, Hb. cbn. lia.
Qed.

Example demo_typing_non_ascii :
  handleUpdateLinkUrl demoProfileUrl demoGithub 0
    (units "https://github.c/" ++ [233%N])%list
    (initialState demoProfileUrl demoGithub) =
  Some (initialState demoProfileUrl demoGithub, None).
Proof. reflexivity. Qed.

Lemma typing_keeps_base_length_witness :
  demoProfileUrl (name demoGithub) = Some (units "https://github.com/") /\
  at_least (List.length (units "https://github.com/"))
           (linkUrl (initialState demoProfileUrl demoGithub)) /\
  typed demoProfileUrl demoGithub 0 demoTyping
        (initialState demoProfileUrl demoGithub) =
    Some (mkLinkItemState (units "Github") false
            (Some (units "https://github.com/ab")),
          [(0, mkLinkProps (units "Github") (Some (units "https://github.com/a")));
           (0, mkLinkProps (units "Github") (Some (units "https://github.com/ab")))]).
Proof.
  split; [reflexivity|].
  assert (H0 : at_least (List.length (units "https://github.com/"))
                 (linkUrl (initialState demoProfileUrl demoGithub)))
    by (vm_compute; lia).
  split; [exact H0|].
  destruct (proj1 (typing_keeps_base_length demoProfileUrl demoGithub 0
              demoTyping (initialState demoProfileUrl demoGithub)
              (units "https://github.com/") eq_refl H0))
    as (s' & Ht & _).
  reflexivity.
Defined.

(** ** The further properties at the example collection *)

Example demo_visit : @serve demo demoUserController demoVisit [] = demoStore4.
Proof. reflexivity. Qed.

Lemma signup_appends_unverified_witness :
  @signup demo demoSignup (mkWorld 1000 "tok1" true) [] =
    (Json 201 "Verification email sent. Please verify your email address.",
     demoStore1) /\
  exists u p,
    demoStore1 = ([] ++ [u])%list /\
    body_password demoSignup = Some p /\
    password u = @hashPassword demo p /\
    isVerified u = false.
Proof.
  split; [reflexivity|].
  destruct (@signup_appends_unverified demo demoSignup
              (mkWorld 1000 "tok1" true) [] demoStore1 _ eq_refl)
    as (u & p & H1 & _ & H2 & H3 & H4 & _).
  exists u, p. auto.
Defined.

Lemma login_requires_verification_witness :
  @signup demo demoSignup (mkWorld 1000 "tok1" true) [] =
    (Json 201 "Verification email sent. Please verify your email address.",
     demoStore1) /\
  query_token (demoLink "tok1") = Some "tok1" /\
  truthy (body_email demoSignup) = true /\
  truthy (body_password demoSignup) = true /\
  body_password demoSignup = Some "Pw123456" /\
  @matchPassword demo "Pw123456" (@hashPassword demo "Pw123456") = true /\
  @login demo demoSignup demoStore1 =
    (Next (mkAppError
       "Your email is not verified. Please verify your email address." 401),
     demoStore1).
Proof.
  do 6 (split; [reflexivity|]).
  exact (proj1 (@login_requires_verification demo demoSignup (demoLink "tok1")
           (mkWorld 1000 "tok1" true) [] demoStore1 _ "Pw123456"
           eq_refl (fun v (H : In v []) => match H with end)
           eq_refl eq_refl eq_refl eq_refl eq_refl)).
Defined.

Lemma login_token_sound_witness :
  @login demo (demoLogin "a@x.com" "Pw123456") demoStore2 =
    (SendToken (mkUser 1 "a@x.com" "$2b$12$Pw123456" true (Some "sha256:tok1")
                       None None) 200 demoSessionToken,
     demoStore2) /\
  exists pw,
    body_password (demoLogin "a@x.com" "Pw123456") = Some pw /\
    @matchPassword demo pw "$2b$12$Pw123456" = true.
Proof.
  split; [reflexivity|].
  destruct (@login_token_sound demo (demoLogin "a@x.com" "Pw123456")
              demoStore2 demoStore2 _ 200 demoSessionToken eq_refl)
    as (pw & _ & _ & Hp & _ & Hm & _).
  exists pw. split; [exact Hp|exact Hm].
Defined.

Lemma bearer_second_word_witness :
  spaceless "Auth" = true /\
  spaceless "abc.def.ghi" = true /\
  bearer (demoAuthorized (Some "BearerAuth abc.def.ghi")) = Some "abc.def.ghi" /\
  bearer (demoAuthorized (Some "BearerAuth abc.def.ghi and more"))
    = Some "abc.def.ghi".
Proof.
  split; [reflexivity|]. split; [reflexivity|].
  destruct (bearer_second_word
              (demoAuthorized (Some "BearerAuth abc.def.ghi"))
              "Auth" "abc.def.ghi" "and more" eq_refl eq_refl) as [H1 _].
  destruct (bearer_second_word
              (demoAuthorized (Some "BearerAuth abc.def.ghi and more"))
              "Auth" "abc.def.ghi" "and more" eq_refl eq_refl) as [_ H2].
  split; [exact (H1 eq_refl)|exact (H2 eq_refl)].
Defined.

Lemma protected_admits_only_verified_tokens_witness :
  @protected demo demoBearer demoNow demoStore2 =
    (NextUser (mkUser 1 "a@x.com" "$2b$12$Pw123456" true (Some "sha256:tok1")
                      None None),
     demoStore2) /\
  exists a t,
    headers_authorization demoBearer = Some a /\
    nth_error (split " " a) 1 = Some t /\
    @jwtVerify demo (now demoNow) t = Some 1.
Proof.
  split; [reflexivity|].
  destruct (@protected_admits_only_verified_tokens demo demoBearer demoNow
              demoStore2 demoStore2 _ eq_refl)
    as (a & t & Ha & _ & Ht & _ & Hv & _).
  exists a, t. auto.
Defined.

Lemma wf_demoStore2 : wf_store demoStore2.
Proof. repeat constructor. intros []. Defined.

Lemma unique_keys_demoStore2 : unique_keys demoStore2.
Proof. split; repeat constructor; intros []. Defined.

Lemma unique_keys_nil : unique_keys [].
Proof. split; constructor. Defined.

Lemma login_token_opens_gate_witness :
  wf_store demoStore2 /\
  @login demo (demoLogin "a@x.com" "Pw123456") demoStore2 =
    (SendToken (mkUser 1 "a@x.com" "$2b$12$Pw123456" true (Some "sha256:tok1")
                       None None) 200 demoSessionToken,
     demoStore2) /\
  @jwtVerify demo (now demoNow) demoSessionToken = Some 1 /\
  20 <= String.length demoSessionToken /\
  spaceless demoSessionToken = true /\
  headers_authorization demoBearer = Some ("Bearer " ++ demoSessionToken) /\
  @protected demo demoBearer demoNow demoStore2 =
    (NextUser (mkUser 1 "a@x.com" "$2b$12$Pw123456" true (Some "sha256:tok1")
                      None None),
     demoStore2).
Proof.
  assert (Hlen : 20 <= String.length demoSessionToken) by (vm_compute; lia).
  split; [exact wf_demoStore2|]. split; [reflexivity|]. split; [reflexivity|].
  split; [exact Hlen|]. split; [reflexivity|]. split; [reflexivity|].
  exact (@login_token_opens_gate demo (demoLogin "a@x.com" "Pw123456")
           demoBearer demoNow demoStore2 _ demoSessionToken wf_demoStore2
           eq_refl eq_refl Hlen eq_refl eq_refl).
Defined.

Lemma demoVisit_auth :
  Forall (fun c : Route * Request * World => authRoute (fst (fst c)) = true)
         demoVisit.
Proof. repeat constructor. Defined.

Lemma serve_unique_keys_witness :
  Forall (fun c : Route * Request * World => authRoute (fst (fst c)) = true)
         demoVisit /\
  unique_keys [] /\
  unique_keys (@serve demo demoUserController demoVisit []).
Proof.
  split; [exact demoVisit_auth|]. split; [exact unique_keys_nil|].
  exact (@serve_unique_keys demo demoUserController demoVisit []
           demoVisit_auth unique_keys_nil).
Defined.

Lemma serve_persists_witness :
  Forall (fun c : Route * Request * World => authRoute (fst (fst c)) = true)
         (tl demoVisit) /\
  unique_keys demoStore1 /\
  persists demoStore1 (@serve demo demoUserController (tl demoVisit) demoStore1).
Proof.
  assert (Hk : unique_keys demoStore1)
    by (split; repeat constructor; intros []).
  assert (Ha : Forall (fun c : Route * Request * World =>
                         authRoute (fst (fst c)) = true) (tl demoVisit))
    by (repeat constructor).
  split; [exact Ha|]. split; [exact Hk|].
  exact (@serve_persists demo demoUserController (tl demoVisit) demoStore1
           Ha Hk).
Defined.

Lemma session_survives_witness :
  Forall (fun c : Route * Request * World => authRoute (fst (fst c)) = true)
         (tl (tl demoVisit)) /\
  unique_keys demoStore2 /\
  @protected demo demoBearer demoNow demoStore2 =
    (NextUser (mkUser 1 "a@x.com" "$2b$12$Pw123456" true (Some "sha256:tok1")
                      None None),
     demoStore2) /\
  (forall t, bearer demoBearer = Some t ->
             @jwtVerify demo (now (mkWorld 7000 "" true)) t
               = @jwtVerify demo (now demoNow) t) /\
  @serve demo demoUserController (tl (tl demoVisit)) demoStore2 = demoStore4 /\
  exists u',
    @protected demo demoBearer (mkWorld 7000 "" true) demoStore4
      = (NextUser u', demoStore4).
Proof.
  assert (Ha : Forall (fun c : Route * Request * World =>
                         authRoute (fst (fst c)) = true) (tl (tl demoVisit)))
    by (repeat constructor).
  assert (Hstill : forall t, bearer demoBearer = Some t ->
            @jwtVerify demo (now (mkWorld 7000 "" true)) t
              = @jwtVerify demo (now demoNow) t).
  { intros t Ht. injection Ht as <-. reflexivity. }
  split; [exact Ha|]. split; [exact unique_keys_demoStore2|].
  split; [reflexivity|]. split; [exact Hstill|]. split; [reflexivity|].
  destruct (@session_survives demo demoUserController (tl (tl demoVisit))
              demoBearer demoNow (mkWorld 7000 "" true) demoStore2 _
              Ha unique_keys_demoStore2 eq_refl Hstill)
    as (u' & Hp & _).
  exists u'. exact Hp.
Defined.

Lemma resetPassword_ignores_verification_witness :
  wf_store demoStore5 /\
  (exists u,
     findOne (by_passwordResetToken (@sha256hex demo "rst1") 2000) demoStore5
       = Some u /\
     isVerified u = false /\
     findOne (by_email (Some (email u))) demoStore5 = Some u /\
     @validate demo (email u) "NewPw123"
        (body_confirmPassword (demoReset "rst1")) = true /\
     bearer demoBearer = Some (@signToken demo (_id u)) /\
     @jwtVerify demo (now demoNow) (@signToken demo (_id u)) = Some (_id u)) /\
  @matchPassword demo "NewPw123" (@hashPassword demo "NewPw123") = true /\
  exists u',
    @resetPassword demo (demoReset "rst1") (mkWorld 2000 "" true) demoStore5 =
      (SendToken u' 200 demoSessionToken, save u' demoStore5) /\
    isVerified u' = false /\
    @login demo (demoLogin "a@x.com" "NewPw123") (save u' demoStore5) =
      (Next (mkAppError
         "Your email is not verified. Please verify your email address." 401),
       save u' demoStore5) /\
    @protected demo demoBearer demoNow (save u' demoStore5) =
      (NextUser u', save u' demoStore5).
Proof.
  assert (Hwf : wf_store demoStore5) by (repeat constructor; intros []).
  assert (Hlen : 20 <= String.length (@signToken demo 1))
    by (vm_compute; lia).
  split; [exact Hwf|].
  split; [eexists; repeat (split; [reflexivity|]); reflexivity|].
  split; [reflexivity|].
  destruct (@resetPassword_ignores_verification demo (demoReset "rst1")
              (demoLogin "a@x.com" "NewPw123") demoBearer
              (mkWorld 2000 "" true) demoNow demoStore5 "rst1" "NewPw123" _
              Hwf eq_refl eq_refl eq_refl eq_refl eq_refl eq_refl
              eq_refl eq_refl eq_refl eq_refl eq_refl eq_refl Hlen eq_refl)
    as (u' & Hr & Hu & _ & Hl & Hp).
  exists u'. auto.
Defined.

Lemma forgot_then_reset_witness :
  (exists u,
     findOne (by_email (body_email demoForgot)) demoStore2 = Some u /\
     (forall v, In v demoStore2 ->
                passwordResetToken v = Some (@sha256hex demo "rst1") ->
                _id v = _id u) /\
     @validate demo (email u) "NewPw123"
        (body_confirmPassword (demoReset "rst1")) = true) /\
  (now (mkWorld 2000 "" true) < now (mkWorld 1000 "rst1" true) + 10 * 60 * 1000)%Z /\
  @matchPassword demo "Pw123456" (@hashPassword demo "NewPw123") = false /\
  exists st1 st2,
    @forgotPassword demo demoForgot (mkWorld 1000 "rst1" true) demoStore2 =
      (Json 200 "Password reset email sent. Please check your email.", st1) /\
    snd (@resetPassword demo (demoReset "rst1") (mkWorld 2000 "" true) st1)
      = st2 /\
    @login demo (demoLogin "a@x.com" "Pw123456") st2 =
      (Next InvalidCredentials, st2).
Proof.
  assert (Honly : forall v, In v demoStore2 ->
            passwordResetToken v = Some (@sha256hex demo "rst1") -> _id v = 1).
  { intros v [<-|[]] _. reflexivity. }
  split; [eexists; split; [reflexivity|split; [exact Honly|reflexivity]]|].
  split; [simpl; lia|]. split; [reflexivity|].
  destruct (@forgot_then_reset demo demoForgot (demoReset "rst1")
              (demoLogin "a@x.com" "Pw123456")
              (mkWorld 1000 "rst1" true) (mkWorld 2000 "" true) demoStore2
              "NewPw123" "Pw123456" _
              eq_refl eq_refl Honly eq_refl ltac:(simpl; lia) eq_refl eq_refl
              eq_refl eq_refl eq_refl eq_refl)
    as (st1 & st2 & u2 & Hf & Hr & _ & _ & _ & _ & Hl).
  exists st1, st2. split; [exact Hf|]. split; [now rewrite Hr|exact Hl].
Defined.

Lemma forgotPassword_replaces_pending_witness :
  (exists u,
     findOne (by_email (body_email demoForgot)) demoStore2 = Some u /\
     forall v, In v demoStore2 ->
               passwordResetToken v = Some (@sha256hex demo "rst1") ->
               _id v = _id u) /\
  @sha256hex demo "rst1" <> @sha256hex demo "rst2" /\
  query_token (demoReset "rst1") = Some "rst1" /\
  exists st1 st2,
    @forgotPassword demo demoForgot (mkWorld 1000 "rst1" true) demoStore2 =
      (Json 200 "Password reset email sent. Please check your email.", st1) /\
    @forgotPassword demo demoForgot (mkWorld 2000 "rst2" true) st1 =
      (Json 200 "Password reset email sent. Please check your email.", st2) /\
    @resetPassword demo (demoReset "rst1") (mkWorld 3000 "" true) st2 =
      (Next InvalidResetToken, st2).
Proof.
  assert (Honly : forall v, In v demoStore2 ->
            passwordResetToken v = Some (@sha256hex demo "rst1") -> _id v = 1).
  { intros v [<-|[]] _. reflexivity. }
  assert (Hne : @sha256hex demo "rst1" <> @sha256hex demo "rst2")
    by discriminate.
  split; [eexists; split; [reflexivity|exact Honly]|].
  split; [exact Hne|]. split; [reflexivity|].
  exact (@forgotPassword_replaces_pending demo demoForgot (demoReset "rst1")
           (mkWorld 1000 "rst1" true) (mkWorld 2000 "rst2" true)
           (mkWorld 3000 "" true) demoStore2 _
           eq_refl eq_refl eq_refl Hne Honly eq_refl).
Defined.

(** ** A header with two blanks *)

(** X17.  The gate splits the header at every single blank: when two
    blanks follow the scheme the token it reads is the empty word between
    them, and the request is turned away with "Invalid token provided"
    whatever comes after, a valid token included. *)
Theorem protected_double_blank_rejected
  `{C : Collaborators} (req : Request) (w : World) (st : Store)
  (x rest : string) :
  spaceless x = true ->
  headers_authorization req = Some ("Bearer" ++ x ++ "  " ++ rest) ->
  bearer req = Some "" /\
  protected req w st = (Next InvalidTokenProvided, st).
Proof.
  intros Hx Hh.
  assert (Hb : bearer req = Some "").
  { rewrite (bearer_of_header req _ Hh).
    replace ("Bearer" ++ x ++ "  " ++ rest)
      with (("Bearer" ++ x) ++ String " " (String " " rest))
      by (rewrite append_assoc; reflexivity).
    rewrite split_first_word
      by (apply spaceless_app; [reflexivity|exact Hx]).
    reflexivity. }
  split; [exact Hb|]. unfold protected. now rewrite Hb.
Qed.

Lemma protected_double_blank_rejected_witness :
  spaceless "" = true /\
  headers_authorization
    (demoAuthorized (Some ("Bearer  " ++ demoSessionToken)))
    = Some ("Bearer" ++ "" ++ "  " ++ demoSessionToken) /\
  @protected demo (demoAuthorized (Some ("Bearer  " ++ demoSessionToken))) demoNow
             demoStore2 =
    (Next InvalidTokenProvided, demoStore2).
Proof.
  split; [reflexivity|]. split; [reflexivity|].
  exact (proj2 (@protected_double_blank_rejected demo
           (demoAuthorized (Some ("Bearer  " ++ demoSessionToken)))
           demoNow demoStore2 "" demoSessionToken eq_refl eq_refl)).
Defined.

(** ** The gate on tokens that do not verify *)

(** A header with a 26-character token that is no JWT: the gate does not
    answer with an error of its own, the handler throws. *)
Lemma protected_malformed_token_throws :
  bearer (demoAuthorized (Some "Bearer abcdefghijklmnopqrstuvwxyz"))
    = Some "abcdefghijklmnopqrstuvwxyz" /\
  @protected demo (demoAuthorized (Some "Bearer abcdefghijklmnopqrstuvwxyz"))
             demoNow demoStore2 =
    (Throw JsonWebTokenError, demoStore2) /\
  ~ (exists err,
       fst (@protected demo
              (demoAuthorized (Some "Bearer abcdefghijklmnopqrstuvwxyz"))
              demoNow demoStore2) = Next err /\
       statusCode err = 401).
Proof.
  split; [reflexivity|]. split; [reflexivity|].
  intros (err & H & _). discriminate H.
Qed.

Example demo_protected_expired :
  @protected demo demoBearer (mkWorld 7776000000 "" true) demoStore2 =
  (Throw JsonWebTokenError, demoStore2).
Proof. reflexivity. Qed.

Lemma signup_duplicate_rejected_witness :
  unique_keys [] /\
  @signup demo demoSignup (mkWorld 1000 "tok1" true) [] =
    (Json 201 "Verification email sent. Please verify your email address.",
     demoStore1) /\
  Forall (fun c : Route * Request * World => authRoute (fst (fst c)) = true)
         (tl demoVisit) /\
  body_email (mkRequest (Some "a@x.com") (Some "Other1234") (Some "Other1234")
                        None None) = body_email demoSignup /\
  @serve demo demoUserController (tl demoVisit) demoStore1 = demoStore4 /\
  @signup demo
     (mkRequest (Some "a@x.com") (Some "Other1234") (Some "Other1234") None None)
     (mkWorld 8000 "tok2" true) demoStore4 =
    (Next (mkAppError "User already exists with this email address." 400),
     demoStore4).
Proof.
  assert (Ha : Forall (fun c : Route * Request * World =>
                         authRoute (fst (fst c)) = true) (tl demoVisit))
    by (repeat constructor).
  split; [exact unique_keys_nil|]. split; [reflexivity|].
  split; [exact Ha|]. split; [reflexivity|]. split; [reflexivity|].
  exact (@signup_duplicate_rejected demo demoUserController (tl demoVisit)
           demoSignup _ (mkWorld 1000 "tok1" true) (mkWorld 8000 "tok2" true)
           [] demoStore1 _ unique_keys_nil eq_refl Ha eq_refl).
Defined.
